(** * Verification of [modules/reddit_auth.py]: the [RedditAuth] class

    A shallow embedding of the credential resolution and session
    establishment of [RedditAuth], and the properties of its public entry
    point [get_reddit_instance].

    Python values are modelled as the module uses them:
    - a [str] is a [string]; characters are code points below 256, on which
      [str.lower] is the mapping [lower_char] below;
    - an attribute that is [None] or a [str] is a [pyval];
    - a [dict] and the sections of a [ConfigParser] are [gmap]s keyed by
      [string]; a section holds the values as the file gives them, and a
      lookup interpolates them as [configparser.BasicInterpolation] does;
    - the attributes of [self], the lines printed and the calls made to the
      outside (form, file system, praw) are threaded through the monad [M];
      an exception raised and [sys.exit] are outcomes of a computation. *)

From Stdlib Require Import Ascii String ZArith NArith Bool List Lia.
From stdpp Require Import base option gmap strings.
Import ListNotations.

Local Open Scope string_scope.
Local Open Scope list_scope.

(** ** Strings *)

Module Str.

(** [s.replace(old, new)] for a one-character [old]. *)
Fixpoint replace (old : ascii) (new s : string) : string :=
  match s with
  | EmptyString => EmptyString
  | String c s' =>
      if Ascii.eqb c old then String.append new (replace old new s')
      else String c (replace old new s')
  end.

(** [str.lower] on one code point below 256: [A-Z] and the upper-case
    letters of the Latin-1 block move up by 32, everything else stays. *)
Definition lower_char (c : ascii) : ascii :=
  let n := N_of_ascii c in
  if ((65 <=? n) && (n <=? 90) || (192 <=? n) && (n <=? 214)
      || (216 <=? n) && (n <=? 222))%N
  then ascii_of_N (n + 32) else c.

(** [s.lower()]. *)
Fixpoint lower (s : string) : string :=
  match s with
  | EmptyString => EmptyString
  | String c s' => String (lower_char c) (lower s')
  end.

(** [k in s] for strings. *)
Fixpoint contains (k s : string) : bool :=
  String.prefix k s ||
  match s with
  | EmptyString => false
  | String _ s' => contains k s'
  end.

(** [c.isspace()] on one code point below 256. *)
Definition isspace (c : ascii) : bool :=
  let n := N_of_ascii c in
  ((9 <=? n) && (n <=? 13) || (28 <=? n) && (n <=? 32)
   || (n =? 133) || (n =? 160))%N.

Definition nl : string := String "010"%char EmptyString.
Definition tab : string := String "009"%char EmptyString.

End Str.

(** ** Values *)

(** An attribute of [RedditAuth]: [None] or a [str]. *)
Inductive pyval : Type :=
| PNone
| PStr (s : string).

(** [bool(v)]. *)
Definition truthy (v : pyval) : bool :=
  match v with
  | PNone => false
  | PStr EmptyString => false
  | PStr _ => true
  end.

(** [f"{v}"]. *)
Definition format (v : pyval) : string :=
  match v with
  | PNone => "None"
  | PStr s => s
  end.

(** [all(vs)]. *)
Definition all (vs : list pyval) : bool := forallb truthy vs.

(** ** Exceptions *)

(** The classes of the errors [config.read] raises on a file it opens:
    those of the parser, and the one of the decoding of the file. *)
Inductive read_error : Type :=
| MissingSectionHeaderError
| ParsingError
| DuplicateSectionError
| DuplicateOptionError
| UnicodeDecodeError.

(** The classes of the errors the lookup of an option raises when its
    value cannot be interpolated. *)
Inductive interpolation_error : Type :=
| InterpolationSyntaxError
| InterpolationMissingOptionError
| InterpolationDepthError.

(** An exception: its class, and what the module or a statement reads of
    its arguments (the message, the key, the file or option it is about). *)
Inductive exn : Type :=
| FileNotFoundError (msg : string)
| KeyError (key : string)
| OAuthException (msg : string)
| ResponseException (msg : string)
| ReadError (cls : read_error) (source : string)
| InterpolationError (cls : interpolation_error) (opt section : string)
| OtherException (cls msg : string).

(** [str(e)] for the exceptions whose text is printed. *)
Definition exn_str (e : exn) : string :=
  match e with
  | FileNotFoundError m | OAuthException m | ResponseException m
  | OtherException _ m => m
  | KeyError k => "'" +:+ k +:+ "'"
  | ReadError _ source => source
  | InterpolationError _ opt _ => opt
  end.

(** ** The object, the outside world and the trace *)

Record RedditAuth : Type := mkRedditAuth {
  is_exe : bool;
  file_path : string;
  user_agent : string;
  client_id : pyval;
  client_secret : pyval;
  username : pyval;
  password : pyval;
  two_factor_code : pyval
}.

(** [RedditAuth.__init__]. *)
Definition __init__ (is_exe : bool) (file_path user_agent : string) : RedditAuth :=
  {| is_exe := is_exe; file_path := file_path; user_agent := user_agent;
     client_id := PNone; client_secret := PNone; username := PNone;
     password := PNone; two_factor_code := PNone |}.

Definition default_file_path : string := "reddit_credentials.ini".
Definition default_user_agent : string := "ereddicator".

(** The keyword arguments of [praw.Reddit(...)]. *)
Record RedditArgs : Type := mkRedditArgs {
  kw_client_id : pyval;
  kw_client_secret : pyval;
  kw_username : pyval;
  kw_password : pyval;
  kw_user_agent : string
}.

(** The session object: a [praw.Reddit] built from its arguments. *)
Record Reddit : Type := mkReddit { reddit_kw : RedditArgs }.

(** A [configparser.ConfigParser]: the options of the [DEFAULT] section
    and those of every other section, each with its value as the file
    gives it, before any interpolation. *)
Record ConfigParser : Type := mkConfigParser {
  cp_defaults : gmap string string;
  cp_sections : gmap string (gmap string string)
}.

(** [configparser.ConfigParser()]: a parser that has read nothing. *)
Definition new_parser : ConfigParser := mkConfigParser ∅ ∅.

(** How [config.read(path)] ends on a fresh parser: the parser holds the
    content of the file (nothing, for a file that cannot be opened), or
    the file is rejected with an error of class [cls]. *)
Inductive read_outcome : Type :=
| Parsed (cfg : ConfigParser)
| Rejected (cls : read_error).

(** What the module calls and does not define. *)
Record World : Type := mkWorld {
  (** [CredentialsInputGUI(root).get_credentials()] *)
  gui_get_credentials : gmap string pyval;
  (** [os.path.exists(path)] *)
  os_path_exists : string -> bool;
  (** [config.read(path)] on a fresh parser *)
  config_read : string -> read_outcome;
  (** the constructor [praw.Reddit]: the exception it raises, if any *)
  praw_Reddit : RedditArgs -> option exn;
  (** [reddit.user.me()]: the exception it raises, if any *)
  user_me : Reddit -> option exn
}.

(** What a run does that can be seen from outside, in order. *)
Inductive event : Type :=
| Print (line : string)
| GuiPrompt
| PathExists (path : string)
| ConfigRead (path : string)
| RedditInit (kw : RedditArgs)
| UserMe (r : Reddit).

(** ** The monad: attributes of [self], trace, exceptions and [sys.exit] *)

Inductive outcome (A : Type) : Type :=
| Return (a : A)
| Raise (e : exn)
| Exit (code : Z).
Arguments Return {A} a.
Arguments Raise {A} e.
Arguments Exit {A} code.

Record result (A : Type) : Type := mkResult {
  res : outcome A;
  self_of : RedditAuth;
  trace : list event
}.
Arguments mkResult {A} res self_of trace.
Arguments res {A} r.
Arguments self_of {A} r.
Arguments trace {A} r.

Definition M (A : Type) : Type := RedditAuth -> list event -> result A.

Definition ret {A} (a : A) : M A := fun s l => mkResult (Return a) s l.

Definition bind {A B} (m : M A) (k : A -> M B) : M B :=
  fun s l =>
    let r := m s l in
    match res r with
    | Return a => k a (self_of r) (trace r)
    | Raise e => mkResult (Raise e) (self_of r) (trace r)
    | Exit c => mkResult (Exit c) (self_of r) (trace r)
    end.

Declare Scope py_scope.
Delimit Scope py_scope with py.
Notation "'let!' x ':=' m 'in' k" := (bind m (fun x => k))
  (at level 10, x name, m at level 100, k at level 200) : py_scope.
Notation "m ';;' k" := (bind m (fun _ => k))
  (at level 100, k at level 200, right associativity) : py_scope.
Local Open Scope py_scope.

Definition raise {A} (e : exn) : M A := fun s l => mkResult (Raise e) s l.
Definition sys_exit {A} (code : Z) : M A := fun s l => mkResult (Exit code) s l.
Definition emit (ev : event) : M unit := fun s l => mkResult (Return tt) s (l ++ [ev])%list.
Definition print (line : string) : M unit := emit (Print line).
Definition get_self : M RedditAuth := fun s l => mkResult (Return s) s l.
Definition modify (f : RedditAuth -> RedditAuth) : M unit :=
  fun s l => mkResult (Return tt) (f s) l.

(** [try: body except ...: handler]: [handler e] is [None] when no
    [except] clause matches the class of [e]. *)
Definition try_except {A} (body : M A) (handler : exn -> option (M A)) : M A :=
  fun s l =>
    let r := body s l in
    match res r with
    | Raise e =>
        match handler e with
        | Some h => h (self_of r) (trace r)
        | None => r
        end
    | _ => r
    end.

(** [self.<attribute> = v]. *)
Definition set_client_id (v : pyval) (s : RedditAuth) : RedditAuth :=
  mkRedditAuth (is_exe s) (file_path s) (user_agent s)
    v (client_secret s) (username s) (password s) (two_factor_code s).
Definition set_client_secret (v : pyval) (s : RedditAuth) : RedditAuth :=
  mkRedditAuth (is_exe s) (file_path s) (user_agent s)
    (client_id s) v (username s) (password s) (two_factor_code s).
Definition set_username (v : pyval) (s : RedditAuth) : RedditAuth :=
  mkRedditAuth (is_exe s) (file_path s) (user_agent s)
    (client_id s) (client_secret s) v (password s) (two_factor_code s).
Definition set_password (v : pyval) (s : RedditAuth) : RedditAuth :=
  mkRedditAuth (is_exe s) (file_path s) (user_agent s)
    (client_id s) (client_secret s) (username s) v (two_factor_code s).
Definition set_two_factor_code (v : pyval) (s : RedditAuth) : RedditAuth :=
  mkRedditAuth (is_exe s) (file_path s) (user_agent s)
    (client_id s) (client_secret s) (username s) (password s) v.

(** ** Dictionaries and the configuration parser *)

(** [d[key]] on a [dict]. *)
Definition dict_getitem (d : gmap string pyval) (key : string) : M pyval :=
  match d !! key with
  | Some v => ret v
  | None => raise (KeyError key)
  end.

(** [d.get(key, fallback)] on a [dict]. *)
Definition dict_get (d : gmap string pyval) (key : string) (fallback : pyval) : pyval :=
  match d !! key with
  | Some v => v
  | None => fallback
  end.

Definition default_section : string := "DEFAULT".

(** A [SectionProxy]: the parser and the name of the section. *)
Record SectionProxy : Type := mkSectionProxy {
  sp_parser : ConfigParser;
  sp_name : string
}.

(** [parser.has_section(name)]: [DEFAULT] is not a section of its own. *)
Definition has_section (cfg : ConfigParser) (name : string) : bool :=
  match cp_sections cfg !! name with
  | Some _ => true
  | None => false
  end.

(** [parser.optionxform]: option names are compared in lower case. *)
Definition optionxform (opt : string) : string := Str.lower opt.

(** The value of an option as the file gives it, [parser.get(section,
    opt, raw=True)]: the section's own option first, then the one of
    [DEFAULT]. *)
Definition option_lookup (p : SectionProxy) (opt : string) : option string :=
  let own :=
    if String.eqb (sp_name p) default_section then None
    else match cp_sections (sp_parser p) !! sp_name p with
         | Some opts => opts !! optionxform opt
         | None => None
         end in
  match own with
  | Some v => Some v
  | None => cp_defaults (sp_parser p) !! optionxform opt
  end.

(** [config[name]]. *)
Definition config_getitem (cfg : ConfigParser) (name : string) : M SectionProxy :=
  if negb (String.eqb name default_section) && negb (has_section cfg name)
  then raise (KeyError name)
  else ret (mkSectionProxy cfg name).

(** *** Interpolation of a value

    [BasicInterpolation._interpolate_some] reads a value from left to
    right: [%%] stands for a percent sign, [%(name)s] for the value of the
    option [name] of the same section or of [DEFAULT], itself interpolated
    when it holds a percent sign, and any other use of [%] is an error. *)

(** Where the reading stands: in plain text, after a [%], inside the
    name of a reference, or after the bracket that closes the name. *)
Inductive scan_state : Type :=
| Text
| Percent
| Key (name : string)
| KeyEnd (name : string).

Definition MAX_INTERPOLATION_DEPTH : nat := 10.

Section Interpolation.

(** [map[var]]: the options a reference can name. *)
Variable map : string -> option string.

(** The [while rest] loop; [expand v] is what a reference to an option of
    value [v] stands for. *)
Fixpoint scan (expand : string -> interpolation_error + string)
    (st : scan_state) (rest : string) : interpolation_error + string :=
  match rest with
  | EmptyString =>
      match st with
      | Text => inr EmptyString
      | _ => inl InterpolationSyntaxError
      end
  | String c rest' =>
      match st with
      | Text =>
          if Ascii.eqb c "%" then scan expand Percent rest'
          else match scan expand Text rest' with
               | inr t => inr (String c t)
               | inl e => inl e
               end
      | Percent =>
          if Ascii.eqb c "%"
          then match scan expand Text rest' with
               | inr t => inr (String c t)
               | inl e => inl e
               end
          else if Ascii.eqb c "(" then scan expand (Key EmptyString) rest'
          else inl InterpolationSyntaxError
      | Key name =>
          if Ascii.eqb c ")"
          then match name with
               | EmptyString => inl InterpolationSyntaxError
               | _ => scan expand (KeyEnd name) rest'
               end
          else scan expand (Key (name +:+ String c EmptyString)) rest'
      | KeyEnd name =>
          if Ascii.eqb c "s"
          then match map (optionxform name) with
               | None => inl InterpolationMissingOptionError
               | Some v =>
                   match expand v with
                   | inl e => inl e
                   | inr t =>
                       match scan expand Text rest' with
                       | inr u => inr (t +:+ u)
                       | inl e => inl e
                       end
                   end
               end
          else inl InterpolationSyntaxError
      end
  end.

(** [_interpolate_some] with [levels] nested calls still allowed: the
    call at depth [MAX_INTERPOLATION_DEPTH + 1] raises. *)
Fixpoint _interpolate_some (levels : nat) (rest : string) : interpolation_error + string :=
  match levels with
  | O => inl InterpolationDepthError
  | S n =>
      scan (fun v => if Str.contains "%" v then _interpolate_some n v else inr v) Text rest
  end.

End Interpolation.

(** [BasicInterpolation.before_get] on the value [raw] of the option
    [opt] of the section. *)
Definition before_get (p : SectionProxy) (opt raw : string) : exn + string :=
  match _interpolate_some
          (option_lookup p)
          MAX_INTERPOLATION_DEPTH raw with
  | inr v => inr v
  | inl cls => inl (InterpolationError cls (optionxform opt) (sp_name p))
  end.

(** What looking the option [opt] up gives: nothing when neither the
    section nor [DEFAULT] has it, else its interpolated value or the
    error of the interpolation. *)
Definition option_value (p : SectionProxy) (opt : string) : option (exn + string) :=
  before_get p opt <$> option_lookup p opt.

(** A value or the exception in its place. *)
Definition value_of {A} (r : exn + A) : M A :=
  match r with
  | inr v => ret v
  | inl e => raise e
  end.

(** [section[opt]]. *)
Definition proxy_getitem (p : SectionProxy) (opt : string) : M string :=
  match option_value p opt with
  | Some r => value_of r
  | None => raise (KeyError opt)
  end.

(** [section.get(opt, fallback)]. *)
Definition proxy_get (p : SectionProxy) (opt fallback : string) : M string :=
  match option_value p opt with
  | Some r => value_of r
  | None => ret fallback
  end.

(** [config = configparser.ConfigParser()] and [config.read(path)]. *)
Definition read_config (w : World) (path : string) : M ConfigParser :=
  emit (ConfigRead path) ;;
  match config_read w path with
  | Parsed cfg => ret cfg
  | Rejected cls => raise (ReadError cls path)
  end.

(** ** The methods of [RedditAuth] *)

(** [RedditAuth._prompt_credentials_from_gui]. *)
Definition _prompt_credentials_from_gui (w : World) : M unit :=
  emit GuiPrompt ;;
  let credentials := gui_get_credentials w in
  let! v := dict_getitem credentials "client id" in
  modify (set_client_id v) ;;
  let! v := dict_getitem credentials "client secret" in
  modify (set_client_secret v) ;;
  let! v := dict_getitem credentials "username" in
  modify (set_username v) ;;
  let! v := dict_getitem credentials "password" in
  modify (set_password v) ;;
  modify (set_two_factor_code (dict_get credentials "two factor code" (PStr "None"))).

(** [RedditAuth._read_credentials_from_file]. *)
Definition _read_credentials_from_file (w : World) : M unit :=
  let! self := get_self in
  emit (PathExists (file_path self)) ;;
  if negb (os_path_exists w (file_path self))
  then raise (FileNotFoundError ("Credentials file not found: " +:+ file_path self))
  else
    let! config := read_config w (file_path self) in
    let! reddit := config_getitem config "reddit" in
    let! v := proxy_getitem reddit "client_id" in
    modify (set_client_id (PStr v)) ;;
    let! reddit := config_getitem config "reddit" in
    let! v := proxy_getitem reddit "client_secret" in
    modify (set_client_secret (PStr v)) ;;
    let! reddit := config_getitem config "reddit" in
    let! v := proxy_getitem reddit "username" in
    modify (set_username (PStr v)) ;;
    let! reddit := config_getitem config "reddit" in
    let! v := proxy_getitem reddit "password" in
    modify (set_password (PStr v)) ;;
    let! reddit := config_getitem config "reddit" in
    let! v := proxy_get reddit "two_factor_code" "None" in
    modify (set_two_factor_code (PStr v)).

(** [RedditAuth._read_credentials]. *)
Definition _read_credentials (w : World) : M unit :=
  let! self := get_self in
  if is_exe self then _prompt_credentials_from_gui w
  else _read_credentials_from_file w.

(** The receiver of a [str] method; it is only taken of a value that
    passed a truthiness test, which [None] does not. *)
Definition as_str (v : pyval) : string :=
  match v with
  | PStr s => s
  | PNone => EmptyString
  end.

(** Lines 112-113: the value of [self.two_factor_code] after the clean-up. *)
Definition clean_two_factor_code (code : pyval) : pyval :=
  if truthy code then PStr (Str.replace " " "" (as_str code)) else code.

(** Lines 116-118: the password handed to [praw.Reddit], from the
    password and the cleaned code. *)
Definition combined_password (pw code : pyval) : pyval :=
  if truthy code && negb (String.eqb (Str.lower (as_str code)) "none")
  then PStr (format pw +:+ ":" +:+ format code)
  else pw.

(** The text printed by the [except FileNotFoundError] clause. *)
Definition missing_file_message (path : string) : string :=
  "Please create a file named '" +:+ path +:+ "' in the same directory "
  +:+ "as main.py with the following format:" +:+ Str.nl
  +:+ "[reddit]" +:+ Str.nl +:+ "client_id = YOUR-CLIENT-ID" +:+ Str.nl
  +:+ "client_secret = YOUR-CLIENT-SECRET" +:+ Str.nl
  +:+ "username = YOUR-USERNAME" +:+ Str.nl +:+ "password = YOUR-PASSWORD" +:+ Str.nl
  +:+ "# Leave as None if you don't use two-factor authentication" +:+ Str.nl
  +:+ "two_factor_code = None".

Definition retrieving_message : string := "Retrieving Reddit Authentication instance...".
Definition success_message : string := "Successfully authenticated.".
Definition failure_message : string :=
  "Failed to authenticate with Reddit. Please check your credentials.".

(** Lines 106-107 of [get_reddit_instance]: read the credentials unless
    the four required attributes are all set. *)
Definition ensure_credentials (w : World) : M unit :=
  let! self := get_self in
  if negb (all [client_id self; client_secret self; username self; password self])
  then _read_credentials w
  else ret tt.

(** Lines 109-129 of [get_reddit_instance]: assemble the password, build
    the session and verify it. *)
Definition authenticate (w : World) : M Reddit :=
  print retrieving_message ;;
  let! self := get_self in
  (if truthy (two_factor_code self)
   then modify (set_two_factor_code
                  (PStr (Str.replace " " "" (as_str (two_factor_code self)))))
   else ret tt) ;;
  let! self := get_self in
  let password :=
    if truthy (two_factor_code self)
       && negb (String.eqb (Str.lower (as_str (two_factor_code self))) "none")
    then PStr (format (password self) +:+ ":" +:+ format (two_factor_code self))
    else password self in
  let kw := mkRedditArgs (client_id self) (client_secret self) (username self)
                         password (user_agent self) in
  emit (RedditInit kw) ;;
  let! reddit := match praw_Reddit w kw with
                 | Some e => raise e
                 | None => ret (mkReddit kw)
                 end in
  emit (UserMe reddit) ;;
  match user_me w reddit with
  | Some e => raise e
  | None => ret tt
  end ;;
  print success_message ;;
  ret reddit.

(** The [try] block of [get_reddit_instance], lines 106-129. *)
Definition get_reddit_instance_try (w : World) : M Reddit :=
  ensure_credentials w ;; authenticate w.

(** The [except] clauses of [get_reddit_instance], lines 130-141. *)
Definition get_reddit_instance_except (e : exn) : option (M Reddit) :=
  match e with
  | FileNotFoundError _ =>
      Some (let! self := get_self in
            print (missing_file_message (file_path self)) ;;
            sys_exit 1)
  | OAuthException _ | ResponseException _ =>
      Some (print failure_message ;;
            print ("Error details: " +:+ exn_str e) ;;
            sys_exit 1)
  | _ => None
  end.

(** [RedditAuth.get_reddit_instance]. *)
Definition get_reddit_instance (w : World) : M Reddit :=
  try_except (get_reddit_instance_try w) get_reddit_instance_except.

(** A run of a method on an object, from an empty trace. *)
Definition run {A} (m : M A) (self : RedditAuth) : result A := m self [].

(** ** Reading a trace *)

(** The keyword arguments of the calls to [praw.Reddit], in order. *)
Fixpoint constructor_calls (t : list event) : list RedditArgs :=
  match t with
  | [] => []
  | RedditInit kw :: t' => kw :: constructor_calls t'
  | _ :: t' => constructor_calls t'
  end.

(** The sessions on which [user.me()] was called, in order. *)
Fixpoint verify_calls (t : list event) : list Reddit :=
  match t with
  | [] => []
  | UserMe r :: t' => r :: verify_calls t'
  | _ :: t' => verify_calls t'
  end.

(** The lines printed, in order. *)
Fixpoint printed (t : list event) : list string :=
  match t with
  | [] => []
  | Print line :: t' => line :: printed t'
  | _ :: t' => printed t'
  end.

(** Whether the form was shown, and whether the file system was touched. *)
Definition consults_gui (t : list event) : bool :=
  existsb (fun ev => match ev with GuiPrompt => true | _ => false end) t.
Definition consults_file (t : list event) : bool :=
  existsb (fun ev => match ev with PathExists _ | ConfigRead _ => true | _ => false end) t.

(** ** What the bundle of an object gives to the constructor *)

(** The object after lines 112-113. *)
Definition cleaned (s : RedditAuth) : RedditAuth :=
  if truthy (two_factor_code s)
  then set_two_factor_code (clean_two_factor_code (two_factor_code s)) s
  else s.

(** The keyword arguments built from the attributes of [s], lines 112-126. *)
Definition kw_of (s : RedditAuth) : RedditArgs :=
  mkRedditArgs (client_id s) (client_secret s) (username s)
    (combined_password (password s) (clean_two_factor_code (two_factor_code s)))
    (user_agent s).

(** The parser [config] of lines 80-81: as created, and filled when the
    read succeeds. *)
Definition parser_of (o : read_outcome) : ConfigParser :=
  match o with
  | Parsed cfg => cfg
  | Rejected _ => new_parser
  end.

(** The class of the error with which the file the object points to is
    rejected, if it is. *)
Definition file_rejected (w : World) (s : RedditAuth) : option read_error :=
  match config_read w (file_path s) with
  | Parsed _ => None
  | Rejected cls => Some cls
  end.

(** The parser after the read of the file the object points to, and its
    [reddit] section. *)
Definition file_parser (w : World) (s : RedditAuth) : ConfigParser :=
  parser_of (config_read w (file_path s)).

Definition reddit_section (w : World) (s : RedditAuth) : SectionProxy :=
  mkSectionProxy (file_parser w s) "reddit".

(** ** The rule as the specification words it *)

(** Strip all whitespace. *)
Fixpoint strip_whitespace (s : string) : string :=
  match s with
  | EmptyString => EmptyString
  | String c s' =>
      if Str.isspace c then strip_whitespace s' else String c (strip_whitespace s')
  end.

(** A second-factor value that counts as absent once [strip] has been
    applied: empty, or equal to [none] whatever the case. *)
Definition trivial_code (strip : string -> string) (code : string) : bool :=
  String.eqb (strip code) "" || String.eqb (Str.lower (strip code)) "none".

(** The password the rule gives, for a given way of stripping. *)
Definition merge_rule (strip : string -> string) (pw code : string) : string :=
  if trivial_code strip code then pw else pw +:+ ":" +:+ strip code.

(** * Properties *)

(** ** Strings *)

Lemma replace_space_idem (s : string) :
  Str.replace " " "" (Str.replace " " "" s) = Str.replace " " "" s.
Proof.
  induction s as [|c s IH]; [reflexivity|].
  simpl. destruct (Ascii.eqb c " ") eqn:E; simpl.
  - exact IH.
  - rewrite E, IH. reflexivity.
Qed.

Lemma contains_app_r (k a b : string) :
  Str.contains k b = true -> Str.contains k (a +:+ b) = true.
Proof.
  intros H. induction a as [|c a IH]; simpl.
  - exact H.
  - rewrite IH. apply orb_true_r.
Qed.

(** ** Traces *)

Lemma constructor_calls_app (t u : list event) :
  constructor_calls (t ++ u) = constructor_calls t ++ constructor_calls u.
Proof.
  induction t as [|ev t IH]; [reflexivity|].
  destruct ev; simpl; rewrite IH; reflexivity.
Qed.

Lemma verify_calls_app (t u : list event) :
  verify_calls (t ++ u) = verify_calls t ++ verify_calls u.
Proof.
  induction t as [|ev t IH]; [reflexivity|].
  destruct ev; simpl; rewrite IH; reflexivity.
Qed.

Lemma printed_app (t u : list event) :
  printed (t ++ u) = printed t ++ printed u.
Proof.
  induction t as [|ev t IH]; [reflexivity|].
  destruct ev; simpl; rewrite IH; reflexivity.
Qed.

(** ** The second half of the [try] block *)

(** How [authenticate] ends on the bundle of [s]. *)
Definition auth_outcome (w : World) (s : RedditAuth) : outcome Reddit :=
  match praw_Reddit w (kw_of s) with
  | Some e => Raise e
  | None =>
      match user_me w (mkReddit (kw_of s)) with
      | Some e => Raise e
      | None => Return (mkReddit (kw_of s))
      end
  end.

(** What [authenticate] adds to the trace on the bundle of [s]. *)
Definition auth_trace (w : World) (s : RedditAuth) : list event :=
  Print retrieving_message :: RedditInit (kw_of s) ::
  match praw_Reddit w (kw_of s) with
  | Some _ => []
  | None =>
      UserMe (mkReddit (kw_of s)) ::
      match user_me w (mkReddit (kw_of s)) with
      | Some _ => []
      | None => [Print success_message]
      end
  end.

Lemma authenticate_eq (w : World) (s : RedditAuth) (l : list event) :
  authenticate w s l = mkResult (auth_outcome w s) (cleaned s) (l ++ auth_trace w s).
Proof.
  unfold authenticate, auth_outcome, auth_trace, kw_of, cleaned,
    clean_two_factor_code, combined_password, bind, print, emit, get_self, modify, ret, raise.
  destruct s as [ie fp ua cid csec usr pw code]; cbn [res self_of trace
    is_exe file_path user_agent client_id client_secret username password two_factor_code].
  destruct (truthy code) eqn:Ht; cbn [res self_of trace set_two_factor_code
    is_exe file_path user_agent client_id client_secret username password
    two_factor_code as_str format andb];
  (destruct (praw_Reddit w _) as [e|]; cbn [res self_of trace];
   [| destruct (user_me w _) as [e|]; cbn [res self_of trace]]);
  rewrite <- !app_assoc; reflexivity.
Qed.

(** ** The [except] clauses *)

(** The classes the two [except] clauses catch. *)
Definition is_auth_error (e : exn) : bool :=
  match e with
  | OAuthException _ | ResponseException _ => true
  | _ => false
  end.

Definition caught (e : exn) : bool :=
  match e with
  | FileNotFoundError _ => true
  | _ => is_auth_error e
  end.

(** How the [except] clauses end a [try] block that ended as [r]. *)
Definition handled (r : result Reddit) : result Reddit :=
  match res r with
  | Raise e =>
      match get_reddit_instance_except e with
      | Some h => h (self_of r) (trace r)
      | None => r
      end
  | _ => r
  end.

Lemma get_reddit_instance_handled (w : World) (s : RedditAuth) :
  run (get_reddit_instance w) s = handled (get_reddit_instance_try w s []).
Proof. reflexivity. Qed.

Lemma handled_auth_error (e : exn) (s : RedditAuth) (t : list event) :
  is_auth_error e = true ->
  handled (mkResult (Raise e) s t)
  = mkResult (Exit 1) s
      (t ++ [Print failure_message; Print ("Error details: " +:+ exn_str e)]).
Proof.
  intros He. destruct e; try discriminate He;
    unfold handled; cbn [res self_of trace get_reddit_instance_except];
    unfold bind, print, emit, sys_exit; cbn [res self_of trace];
    rewrite <- app_assoc; reflexivity.
Qed.

Lemma handled_missing_file (m : string) (s : RedditAuth) (t : list event) :
  handled (mkResult (Raise (FileNotFoundError m)) s t)
  = mkResult (Exit 1) s (t ++ [Print (missing_file_message (file_path s))]).
Proof. reflexivity. Qed.

Lemma handled_uncaught (e : exn) (s : RedditAuth) (t : list event) :
  caught e = false ->
  handled (mkResult (Raise e) s t) = mkResult (Raise e) s t.
Proof. intros He. destruct e; try discriminate He; reflexivity. Qed.

Lemma handled_return (x : Reddit) (s : RedditAuth) (t : list event) :
  handled (mkResult (Return x) s t) = mkResult (Return x) s t.
Proof. reflexivity. Qed.

(** A caught exception always ends in [sys.exit(1)], with the attributes
    as the [try] block left them. *)
Lemma handled_caught (e : exn) (s : RedditAuth) (t : list event) :
  caught e = true ->
  res (handled (mkResult (Raise e) s t)) = Exit 1
  /\ self_of (handled (mkResult (Raise e) s t)) = s.
Proof.
  intros He. destruct e; try discriminate He.
  - rewrite handled_missing_file. split; reflexivity.
  - rewrite handled_auth_error by reflexivity. split; reflexivity.
  - rewrite handled_auth_error by reflexivity. split; reflexivity.
Qed.

(** ** The first half of the [try] block *)

(** The object with its five credentials replaced. *)
Definition with_credentials (s : RedditAuth) (cid csec usr pw code : pyval) : RedditAuth :=
  mkRedditAuth (is_exe s) (file_path s) (user_agent s) cid csec usr pw code.

Definition required_options : list string :=
  ["client_id"; "client_secret"; "username"; "password"].

Definition required_fields : list string :=
  ["client id"; "client secret"; "username"; "password"].

(** One step of a computation in [M]. *)
Lemma bind_ret {A B} (a : A) (k : A -> M B) (s : RedditAuth) (l : list event) :
  bind (ret a) k s l = k a s l.
Proof. reflexivity. Qed.

Lemma bind_raise {A B} (e : exn) (k : A -> M B) (s : RedditAuth) (l : list event) :
  bind (raise e) k s l = mkResult (Raise e) s l.
Proof. reflexivity. Qed.

Lemma bind_emit {B} (ev : event) (k : unit -> M B) (s : RedditAuth) (l : list event) :
  bind (emit ev) k s l = k tt s (l ++ [ev]).
Proof. reflexivity. Qed.

Lemma bind_get_self {B} (k : RedditAuth -> M B) (s : RedditAuth) (l : list event) :
  bind get_self k s l = k s s l.
Proof. reflexivity. Qed.

Lemma bind_modify {B} (f : RedditAuth -> RedditAuth) (k : unit -> M B)
    (s : RedditAuth) (l : list event) :
  bind (modify f) k s l = k tt (f s) l.
Proof. reflexivity. Qed.

Lemma bind_config_getitem {B} (cfg : ConfigParser) (k : SectionProxy -> M B)
    (s : RedditAuth) (l : list event) :
  bind (config_getitem cfg "reddit") k s l
  = if has_section cfg "reddit" then k (mkSectionProxy cfg "reddit") s l
    else mkResult (Raise (KeyError "reddit")) s l.
Proof.
  unfold config_getitem. change (String.eqb "reddit" default_section) with false.
  cbn [negb andb]. destruct (has_section cfg "reddit"); reflexivity.
Qed.

Lemma bind_proxy_getitem {B} (p : SectionProxy) (opt : string) (k : string -> M B)
    (s : RedditAuth) (l : list event) :
  bind (proxy_getitem p opt) k s l
  = match option_value p opt with
    | Some (inr v) => k v s l
    | Some (inl e) => mkResult (Raise e) s l
    | None => mkResult (Raise (KeyError opt)) s l
    end.
Proof. unfold proxy_getitem. destruct (option_value p opt) as [[e|v]|]; reflexivity. Qed.

Lemma bind_proxy_get {B} (p : SectionProxy) (opt fallback : string) (k : string -> M B)
    (s : RedditAuth) (l : list event) :
  bind (proxy_get p opt fallback) k s l
  = match option_value p opt with
    | Some (inr v) => k v s l
    | Some (inl e) => mkResult (Raise e) s l
    | None => k fallback s l
    end.
Proof. unfold proxy_get. destruct (option_value p opt) as [[e|v]|]; reflexivity. Qed.

Lemma bind_read_config {B} (w : World) (path : string) (k : ConfigParser -> M B)
    (s : RedditAuth) (l : list event) :
  bind (read_config w path) k s l
  = match config_read w path with
    | Parsed cfg => k cfg s (l ++ [ConfigRead path])
    | Rejected cls => mkResult (Raise (ReadError cls path)) s (l ++ [ConfigRead path])
    end.
Proof. unfold read_config, bind, emit. cbn. destruct (config_read w path); reflexivity. Qed.

Lemma bind_dict_getitem {B} (d : gmap string pyval) (key : string) (k : pyval -> M B)
    (s : RedditAuth) (l : list event) :
  bind (dict_getitem d key) k s l
  = match d !! key with
    | Some v => k v s l
    | None => mkResult (Raise (KeyError key)) s l
    end.
Proof. unfold dict_getitem. destruct (d !! key); reflexivity. Qed.

Ltac step :=
  first [ rewrite bind_get_self | rewrite bind_emit | rewrite bind_modify
        | rewrite bind_ret | rewrite bind_raise
        | rewrite bind_config_getitem | rewrite bind_proxy_getitem
        | rewrite bind_proxy_get | rewrite bind_read_config
        | rewrite bind_dict_getitem ].

Ltac reduce_run :=
  cbn [res self_of trace negb andb is_exe file_path user_agent
       set_client_id set_client_secret set_username set_password set_two_factor_code
       client_id client_secret username password two_factor_code].


Lemma option_value_error (p : SectionProxy) (opt : string) (e : exn) :
  option_value p opt = Some (inl e) ->
  exists cls, e = InterpolationError cls (optionxform opt) (sp_name p).
Proof.
  unfold option_value. destruct (option_lookup p opt) as [raw|]; [|discriminate].
  change (Some (before_get p opt raw) = Some (inl e) -> exists cls,
            e = InterpolationError cls (optionxform opt) (sp_name p)).
  unfold before_get.
  destruct (_interpolate_some (option_lookup p) MAX_INTERPOLATION_DEPTH raw) as [cls|v];
    [|discriminate].
  intros [= <-]. exists cls. reflexivity.
Qed.

(** A value without a percent sign is its own interpolation. *)
Lemma scan_plain (map : string -> option string)
    (expand : string -> interpolation_error + string) (rest : string) :
  Str.contains "%" rest = false -> scan map expand Text rest = inr rest.
Proof.
  induction rest as [|c rest IH]; [reflexivity|].
  cbn [Str.contains String.prefix scan].
  destruct (Ascii.eqb c "%") eqn:Ec.
  - apply Ascii.eqb_eq in Ec. subst c. cbn. destruct rest; discriminate.
  - assert (Hp : (if ascii_dec "%" c then String.prefix "" rest else false) = false).
    { destruct (ascii_dec "%" c) as [<-|_]; [|reflexivity].
      rewrite Ascii.eqb_refl in Ec. discriminate. }
    rewrite Hp. cbn [orb]. intros H. rewrite (IH H). reflexivity.
Qed.

Lemma option_value_plain (p : SectionProxy) (opt raw : string) :
  option_lookup p opt = Some raw ->
  Str.contains "%" raw = false ->
  option_value p opt = Some (inr raw).
Proof.
  intros Hl Hp. unfold option_value. rewrite Hl.
  change (Some (before_get p opt raw) = Some (inr raw)).
  unfold before_get, MAX_INTERPOLATION_DEPTH. cbn [_interpolate_some].
  rewrite (scan_plain _ _ _ Hp). reflexivity.
Qed.

(** Why a read of a file that exists raises [e]: the file is rejected;
    it has no [reddit] section; a required option is missing; the value
    of a required option cannot be interpolated; or the four required
    options have a value and the one of [two_factor_code] cannot be
    interpolated. *)
Definition file_failure (w : World) (s : RedditAuth) (e : exn) : Prop :=
  (exists cls, file_rejected w s = Some cls /\ e = ReadError cls (file_path s))
  \/ (file_rejected w s = None
      /\ has_section (file_parser w s) "reddit" = false
      /\ e = KeyError "reddit")
  \/ (file_rejected w s = None
      /\ has_section (file_parser w s) "reddit" = true
      /\ ((exists k, In k required_options
                     /\ option_value (reddit_section w s) k = None /\ e = KeyError k)
          \/ (exists k, In k required_options
                        /\ option_value (reddit_section w s) k = Some (inl e))
          \/ ((forall k, In k required_options ->
                  exists v, option_value (reddit_section w s) k = Some (inr v))
              /\ option_value (reddit_section w s) "two_factor_code" = Some (inl e)))).

Lemma file_failure_uncaught (w : World) (s : RedditAuth) (e : exn) :
  file_failure w s e -> caught e = false.
Proof.
  intros [(cls & _ & ->)|[(_ & _ & ->)
         |(_ & _ & [(k & _ & _ & ->)|[(k & _ & H)|(_ & H)]])]];
    try reflexivity;
    apply option_value_error in H; destruct H as (cls & ->); reflexivity.
Qed.

(** The three ways [_read_credentials_from_file] ends. *)
Lemma read_file_cases (w : World) (s : RedditAuth) (l : list event) :
  let r := _read_credentials_from_file w s l in
  let p := file_path s in
  let sec := reddit_section w s in
  (os_path_exists w p = false
   /\ r = mkResult (Raise (FileNotFoundError ("Credentials file not found: " +:+ p)))
            s (l ++ [PathExists p]))
  \/ (os_path_exists w p = true
      /\ (exists e, res r = Raise e /\ file_failure w s e)
      /\ trace r = l ++ [PathExists p; ConfigRead p])
  \/ (os_path_exists w p = true
      /\ file_rejected w s = None
      /\ has_section (file_parser w s) "reddit" = true
      /\ exists (v1 v2 v3 v4 : string) (code : option string),
           option_value sec "client_id" = Some (inr v1)
           /\ option_value sec "client_secret" = Some (inr v2)
           /\ option_value sec "username" = Some (inr v3)
           /\ option_value sec "password" = Some (inr v4)
           /\ option_value sec "two_factor_code" = inr <$> code
           /\ r = mkResult (Return tt)
                    (with_credentials s (PStr v1) (PStr v2) (PStr v3) (PStr v4)
                       (PStr (default "None" code)))
                    (l ++ [PathExists p; ConfigRead p])).
Proof.
  intros r p sec. subst r p sec.
  unfold file_failure, reddit_section, file_parser, file_rejected, required_options.
  unfold _read_credentials_from_file. do 2 step.
  destruct (os_path_exists w (file_path s)) eqn:Hex; cbn [negb].
  2:{ left. split; reflexivity. }
  right. step. rewrite <- app_assoc. cbn [app].
  destruct (config_read w (file_path s)) as [cfg|cls] eqn:Hrd; cbn [parser_of].
  2:{ left. split; [reflexivity|]. split; [|reflexivity].
      eexists. split; [reflexivity|]. left. exists cls. split; reflexivity. }
  step.
  destruct (has_section cfg "reddit") eqn:Hsec.
  2:{ left. split; [reflexivity|]. split; [|reflexivity].
      eexists. split; [reflexivity|]. right. left. repeat split. }
  step. destruct (option_value _ "client_id") as [[e1|v1]|] eqn:H1.
  1:{ left. split; [reflexivity|]. split; [|reflexivity].
      eexists. split; [reflexivity|]. right. right. do 2 (split; [reflexivity|]).
      right. left. exists "client_id". split; [simpl; tauto|exact H1]. }
  2:{ left. split; [reflexivity|]. split; [|reflexivity].
      eexists. split; [reflexivity|]. right. right. do 2 (split; [reflexivity|]).
      left. exists "client_id". split; [simpl; tauto|]. split; [exact H1|reflexivity]. }
  do 2 step. rewrite Hsec. step.
  destruct (option_value _ "client_secret") as [[e2|v2]|] eqn:H2.
  1:{ left. split; [reflexivity|]. split; [|reflexivity].
      eexists. split; [reflexivity|]. right. right. do 2 (split; [reflexivity|]).
      right. left. exists "client_secret". split; [simpl; tauto|exact H2]. }
  2:{ left. split; [reflexivity|]. split; [|reflexivity].
      eexists. split; [reflexivity|]. right. right. do 2 (split; [reflexivity|]).
      left. exists "client_secret". split; [simpl; tauto|]. split; [exact H2|reflexivity]. }
  do 2 step. rewrite Hsec. step.
  destruct (option_value _ "username") as [[e3|v3]|] eqn:H3.
  1:{ left. split; [reflexivity|]. split; [|reflexivity].
      eexists. split; [reflexivity|]. right. right. do 2 (split; [reflexivity|]).
      right. left. exists "username". split; [simpl; tauto|exact H3]. }
  2:{ left. split; [reflexivity|]. split; [|reflexivity].
      eexists. split; [reflexivity|]. right. right. do 2 (split; [reflexivity|]).
      left. exists "username". split; [simpl; tauto|]. split; [exact H3|reflexivity]. }
  do 2 step. rewrite Hsec. step.
  destruct (option_value _ "password") as [[e4|v4]|] eqn:H4.
  1:{ left. split; [reflexivity|]. split; [|reflexivity].
      eexists. split; [reflexivity|]. right. right. do 2 (split; [reflexivity|]).
      right. left. exists "password". split; [simpl; tauto|exact H4]. }
  2:{ left. split; [reflexivity|]. split; [|reflexivity].
      eexists. split; [reflexivity|]. right. right. do 2 (split; [reflexivity|]).
      left. exists "password". split; [simpl; tauto|]. split; [exact H4|reflexivity]. }
  do 2 step. rewrite Hsec. step.
  destruct (option_value _ "two_factor_code") as [[e5|v5]|] eqn:H5.
  - left. split; [reflexivity|]. split; [|reflexivity].
    eexists. split; [reflexivity|]. right. right. do 2 (split; [reflexivity|]).
    right. right. split; [|reflexivity].
    intros k [<-|[<-|[<-|[<-|[]]]]]; eexists; eassumption.
  - right. do 3 (split; [reflexivity|]).
    exists v1, v2, v3, v4, (Some v5). repeat (split; [reflexivity|]). reflexivity.
  - right. do 3 (split; [reflexivity|]).
    exists v1, v2, v3, v4, None. repeat (split; [reflexivity|]). reflexivity.
Qed.

(** The two ways [_prompt_credentials_from_gui] ends. *)
Lemma read_gui_cases (w : World) (s : RedditAuth) (l : list event) :
  let r := _prompt_credentials_from_gui w s l in
  let d := gui_get_credentials w in
  ((exists k, res r = Raise (KeyError k) /\ In k required_fields /\ d !! k = None)
   /\ trace r = l ++ [GuiPrompt])
  \/ (exists v1 v2 v3 v4,
        d !! "client id" = Some v1
        /\ d !! "client secret" = Some v2
        /\ d !! "username" = Some v3
        /\ d !! "password" = Some v4
        /\ r = mkResult (Return tt)
                 (with_credentials s v1 v2 v3 v4
                    (dict_get d "two factor code" (PStr "None")))
                 (l ++ [GuiPrompt])).
Proof.
  intros r d. subst r d. unfold required_fields.
  unfold _prompt_credentials_from_gui. do 2 step.
  destruct (gui_get_credentials w !! "client id") as [v1|] eqn:H1.
  2:{ left. split; [|reflexivity].
      exists "client id". split; [reflexivity|]. split; [simpl; tauto|exact H1]. }
  do 2 step.
  destruct (gui_get_credentials w !! "client secret") as [v2|] eqn:H2.
  2:{ left. split; [|reflexivity].
      exists "client secret". split; [reflexivity|]. split; [simpl; tauto|exact H2]. }
  do 2 step.
  destruct (gui_get_credentials w !! "username") as [v3|] eqn:H3.
  2:{ left. split; [|reflexivity].
      exists "username". split; [reflexivity|]. split; [simpl; tauto|exact H3]. }
  do 2 step.
  destruct (gui_get_credentials w !! "password") as [v4|] eqn:H4.
  2:{ left. split; [|reflexivity].
      exists "password". split; [reflexivity|]. split; [simpl; tauto|exact H4]. }
  step.
  right. exists v1, v2, v3, v4. repeat (split; [reflexivity|]). reflexivity.
Qed.

(** The test of line 106. *)
Definition bundle_complete (s : RedditAuth) : bool :=
  all [client_id s; client_secret s; username s; password s].

Lemma ensure_complete (w : World) (s : RedditAuth) (l : list event) :
  bundle_complete s = true ->
  ensure_credentials w s l = mkResult (Return tt) s l.
Proof.
  unfold bundle_complete, ensure_credentials, bind, get_self. cbn [res self_of trace].
  intros ->. reflexivity.
Qed.

Lemma ensure_incomplete (w : World) (s : RedditAuth) (l : list event) :
  bundle_complete s = false ->
  ensure_credentials w s l
  = if is_exe s then _prompt_credentials_from_gui w s l
    else _read_credentials_from_file w s l.
Proof.
  unfold bundle_complete, ensure_credentials, _read_credentials, bind, get_self.
  cbn [res self_of trace]. intros ->. cbn [negb].
  destruct (is_exe s); reflexivity.
Qed.

(** The events of a read: no print, no call to praw. *)
Definition read_only (t : list event) : Prop :=
  constructor_calls t = [] /\ verify_calls t = [] /\ printed t = [].

Lemma ensure_trace (w : World) (s : RedditAuth) (l : list event) :
  exists t, trace (ensure_credentials w s l) = l ++ t /\ read_only t.
Proof.
  destruct (bundle_complete s) eqn:Hc.
  - rewrite ensure_complete by exact Hc. exists []. cbn [trace].
    rewrite app_nil_r. repeat split.
  - rewrite ensure_incomplete by exact Hc. destruct (is_exe s).
    + destruct (read_gui_cases w s l) as [[_ Ht]|(v1 & v2 & v3 & v4 & _ & _ & _ & _ & Hr)].
      * exists [GuiPrompt]. split; [exact Ht | repeat split].
      * rewrite Hr. exists [GuiPrompt]. repeat split.
    + destruct (read_file_cases w s l)
        as [[_ Hr]|[(_ & _ & Ht)|(_ & _ & _ & v1 & v2 & v3 & v4 & code & _ & _ & _ & _ & _ & Hr)]].
      * rewrite Hr. eexists. split; [reflexivity | repeat split].
      * eexists. split; [exact Ht | repeat split].
      * rewrite Hr. eexists. split; [reflexivity | repeat split].
Qed.

Lemma ensure_no_exit (w : World) (s : RedditAuth) (l : list event) (c : Z) :
  res (ensure_credentials w s l) <> Exit c.
Proof.
  destruct (bundle_complete s) eqn:Hc.
  - rewrite ensure_complete by exact Hc. discriminate.
  - rewrite ensure_incomplete by exact Hc. destruct (is_exe s).
    + destruct (read_gui_cases w s l)
        as [[(k & Hk & _) _]|(v1 & v2 & v3 & v4 & _ & _ & _ & _ & Hr)].
      * rewrite Hk. discriminate.
      * rewrite Hr. discriminate.
    + destruct (read_file_cases w s l)
        as [[_ Hr]|[(_ & (k & Hk & _) & _)|(_ & _ & _ & v1 & v2 & v3 & v4 & code & _ & _ & _ & _ & _ & Hr)]].
      * rewrite Hr. discriminate.
      * rewrite Hk. discriminate.
      * rewrite Hr. discriminate.
Qed.

(** The only exception of a read that an [except] clause catches is the
    one of the missing file. *)
Lemma ensure_raise_caught (w : World) (s : RedditAuth) (l : list event) (e : exn) :
  res (ensure_credentials w s l) = Raise e ->
  caught e = true ->
  is_exe s = false /\ bundle_complete s = false
  /\ os_path_exists w (file_path s) = false
  /\ ensure_credentials w s l
     = mkResult (Raise (FileNotFoundError ("Credentials file not found: " +:+ file_path s)))
         s (l ++ [PathExists (file_path s)]).
Proof.
  destruct (bundle_complete s) eqn:Hc.
  - rewrite ensure_complete by exact Hc. discriminate.
  - rewrite ensure_incomplete by exact Hc. destruct (is_exe s).
    + destruct (read_gui_cases w s l)
        as [[(k & Hk & _) _]|(v1 & v2 & v3 & v4 & _ & _ & _ & _ & Hr)].
      * rewrite Hk. intros [= <-]. discriminate.
      * rewrite Hr. discriminate.
    + destruct (read_file_cases w s l)
        as [[Hex Hr]|[(_ & (k & Hk & Hwhy) & _)|(_ & _ & _ & v1 & v2 & v3 & v4 & code & _ & _ & _ & _ & _ & Hr)]].
      * intros _ _. repeat split; assumption.
      * rewrite Hk. intros [= <-] Hcaught.
        rewrite (file_failure_uncaught _ _ _ Hwhy) in Hcaught. discriminate.
      * rewrite Hr. discriminate.
Qed.

(** ** The whole entry point *)

Lemma try_after_read (w : World) (s s1 : RedditAuth) (l1 : list event) :
  ensure_credentials w s [] = mkResult (Return tt) s1 l1 ->
  get_reddit_instance_try w s []
  = mkResult (auth_outcome w s1) (cleaned s1) (l1 ++ auth_trace w s1).
Proof.
  intros H. unfold get_reddit_instance_try, bind. rewrite H.
  cbn [res self_of trace]. apply authenticate_eq.
Qed.

Lemma try_read_raises (w : World) (s : RedditAuth) (e : exn) :
  res (ensure_credentials w s []) = Raise e ->
  get_reddit_instance_try w s []
  = mkResult (Raise e) (self_of (ensure_credentials w s []))
      (trace (ensure_credentials w s [])).
Proof.
  intros H. unfold get_reddit_instance_try, bind. rewrite H. reflexivity.
Qed.

Lemma run_after_read (w : World) (s s1 : RedditAuth) (l1 : list event) :
  ensure_credentials w s [] = mkResult (Return tt) s1 l1 ->
  run (get_reddit_instance w) s
  = handled (mkResult (auth_outcome w s1) (cleaned s1) (l1 ++ auth_trace w s1)).
Proof.
  intros H. rewrite get_reddit_instance_handled, (try_after_read _ _ _ _ H). reflexivity.
Qed.

(** What the [except] clauses add to a trace: prints only. *)
Lemma handled_trace (r : result Reddit) :
  exists t, trace (handled r) = trace r ++ t
            /\ constructor_calls t = [] /\ verify_calls t = [].
Proof.
  destruct r as [[x|e|c] s t]; try (exists []; cbn; rewrite app_nil_r; repeat split; reflexivity).
  destruct (caught e) eqn:Hc.
  - destruct e; try discriminate Hc.
    + rewrite handled_missing_file. eexists. repeat split.
    + rewrite handled_auth_error by reflexivity. eexists. repeat split.
    + rewrite handled_auth_error by reflexivity. eexists. repeat split.
  - rewrite handled_uncaught by exact Hc. exists []. cbn. rewrite app_nil_r. repeat split.
Qed.

Lemma handled_self (r : result Reddit) : self_of (handled r) = self_of r.
Proof.
  destruct r as [[x|e|c] s t]; try reflexivity.
  destruct (caught e) eqn:Hc.
  - apply handled_caught. exact Hc.
  - rewrite handled_uncaught by exact Hc. reflexivity.
Qed.

Lemma auth_trace_calls (w : World) (s : RedditAuth) :
  constructor_calls (auth_trace w s) = [kw_of s].
Proof.
  unfold auth_trace. destruct (praw_Reddit w (kw_of s)); [reflexivity|].
  destruct (user_me w _); reflexivity.
Qed.

(** Once the credentials are there, the constructor is called exactly
    once, with the arguments built from them. *)
Lemma run_constructor_calls (w : World) (s s1 : RedditAuth) (l1 : list event) :
  ensure_credentials w s [] = mkResult (Return tt) s1 l1 ->
  constructor_calls (trace (run (get_reddit_instance w) s)) = [kw_of s1].
Proof.
  intros H. rewrite (run_after_read _ _ _ _ H).
  destruct (handled_trace (mkResult (auth_outcome w s1) (cleaned s1) (l1 ++ auth_trace w s1)))
    as (t & -> & Ht & _).
  cbn [trace]. rewrite !constructor_calls_app, Ht, auth_trace_calls, app_nil_r.
  destruct (ensure_trace w s []) as (t1 & Ht1 & Hro & _).
  rewrite H in Ht1. cbn in Ht1. subst l1. rewrite Hro. reflexivity.
Qed.

(** ** The two-factor merge rule *)

Lemma truthy_PStr (s : string) : truthy (PStr s) = negb (String.eqb s "").
Proof. destruct s; reflexivity. Qed.

(** Lines 112-118 compute the rule of the specification with "strip"
    read as the removal of the space character. *)
Lemma combined_password_rule (pw : pyval) (code : string) :
  combined_password pw (clean_two_factor_code (PStr code))
  = if trivial_code (Str.replace " " "") code then pw
    else PStr (format pw +:+ ":" +:+ Str.replace " " "" code).
Proof.
  unfold clean_two_factor_code, combined_password, trivial_code.
  destruct (truthy (PStr code)) eqn:Ht; cbn [as_str format].
  - rewrite truthy_PStr.
    destruct (String.eqb (Str.replace " " "" code) ""); [reflexivity|].
    destruct (String.eqb (Str.lower (Str.replace " " "" code)) "none"); reflexivity.
  - destruct code; [reflexivity | discriminate Ht].
Qed.

Lemma combined_password_unset (pw : pyval) :
  combined_password pw (clean_two_factor_code PNone) = pw.
Proof. reflexivity. Qed.

Lemma clean_two_factor_code_idem (code : pyval) :
  clean_two_factor_code (clean_two_factor_code code) = clean_two_factor_code code.
Proof.
  unfold clean_two_factor_code.
  destruct (truthy code) eqn:Ht; [|rewrite Ht; reflexivity].
  destruct (truthy (PStr _)) eqn:Ht'; [|reflexivity].
  cbn [as_str]. rewrite replace_space_idem. reflexivity.
Qed.

Lemma kw_of_cleaned (s : RedditAuth) : kw_of (cleaned s) = kw_of s.
Proof.
  unfold cleaned. destruct (truthy (two_factor_code s)) eqn:Ht; [|reflexivity].
  unfold kw_of. destruct s; cbn [set_two_factor_code client_id client_secret
    username password two_factor_code user_agent].
  rewrite clean_two_factor_code_idem. reflexivity.
Qed.

(** ** Worlds and objects used as concrete inputs *)

Definition sample_options : gmap string string :=
  {[ "client_id" := "abc"; "client_secret" := "xyz";
     "username" := "alice"; "password" := "hunter2" ]}.

(** A file with the four required options and no [two_factor_code]. *)
Definition sample_config : ConfigParser :=
  mkConfigParser ∅ {[ "reddit" := sample_options ]}.

(** A file whose [password] option has an empty value. *)
Definition empty_password_config : ConfigParser :=
  mkConfigParser ∅ {[ "reddit" := <[ "password" := "" ]> sample_options ]}.

(** A file whose [reddit] section has no [password] option. *)
Definition no_password_config : ConfigParser :=
  mkConfigParser ∅ {[ "reddit" := delete "password" sample_options ]}.

Definition sample_form : gmap string pyval :=
  {[ "client id" := PStr "abc"; "client secret" := PStr "xyz";
     "username" := PStr "alice"; "password" := PStr "hunter2" ]}.

(** A world in which [cfg] is the credentials file, if [present], and the
    session is built and verified as [init] and [me] say. *)
Definition world (present : bool) (cfg : ConfigParser)
    (init : option exn) (me : option exn) : World :=
  mkWorld sample_form (fun _ => present) (fun _ => Parsed cfg) (fun _ => init) (fun _ => me).

(** A script run ([is_exe] unset) and an executable run, as [__init__]
    leaves them. *)
Definition script_auth : RedditAuth := __init__ false default_file_path default_user_agent.
Definition exe_auth : RedditAuth := __init__ true default_file_path default_user_agent.

(** An object whose credentials were assigned, with second factor [code]. *)
Definition preset_auth (code : pyval) : RedditAuth :=
  mkRedditAuth false default_file_path default_user_agent
    (PStr "abc") (PStr "xyz") (PStr "alice") (PStr "hunter2") code.

Definition spaced_code : string := " 123 456 ".
Definition tabbed_code : string := " 123" +:+ Str.tab +:+ "456 ".

(** ** C1, C2: the password handed to the constructor *)

(** C1 as the specification states it does not hold: with "strip all
    whitespace" read literally, the code [" 123<TAB>456 "] strips to
    [123456], which is neither empty nor [none], so the claim promises the
    password [hunter2:123456]; [get_reddit_instance] removes the spaces only
    and hands [hunter2:123<TAB>456] to the constructor. *)
Lemma C1_counterexample_tab_in_code :
  strip_whitespace tabbed_code = "123456"
  /\ trivial_code strip_whitespace tabbed_code = false
  /\ merge_rule strip_whitespace "hunter2" tabbed_code = "hunter2:123456"
  /\ map kw_password
       (constructor_calls
          (trace (run (get_reddit_instance (world true sample_config None None))
                      (preset_auth (PStr tabbed_code)))))
     = [PStr ("hunter2:123" +:+ Str.tab +:+ "456")]
  /\ PStr ("hunter2:123" +:+ Str.tab +:+ "456") <> PStr "hunter2:123456".
Proof.
  repeat split; try reflexivity. discriminate.
Qed.

(** C1 (amended): for every credential bundle, as found on entry or as read
    from the selected source, whose two-factor value is non-empty and not
    [none] (whatever the case) once its space characters are removed, the
    constructor is called exactly once, and the password it receives is the
    bundle's password, a single colon, and the value without its spaces:
    the join is made once, on the cleaned value. *)
Theorem C1_password_joined_with_cleaned_code
    (w : World) (s s1 : RedditAuth) (l1 : list event) (code : string) :
  ensure_credentials w s [] = mkResult (Return tt) s1 l1 ->
  two_factor_code s1 = PStr code ->
  trivial_code (Str.replace " " "") code = false ->
  constructor_calls (trace (run (get_reddit_instance w) s))
  = [mkRedditArgs (client_id s1) (client_secret s1) (username s1)
       (PStr (format (password s1) +:+ ":" +:+ Str.replace " " "" code))
       (user_agent s1)].
Proof.
  intros Hread Hcode Htriv.
  rewrite (run_constructor_calls _ _ _ _ Hread).
  unfold kw_of. rewrite Hcode, combined_password_rule, Htriv. reflexivity.
Qed.

Lemma C1_witness_spaced_code :
  constructor_calls
    (trace (run (get_reddit_instance (world true sample_config None None))
                (preset_auth (PStr spaced_code))))
  = [mkRedditArgs (PStr "abc") (PStr "xyz") (PStr "alice")
       (PStr "hunter2:123456") default_user_agent].
Proof.
  exact (C1_password_joined_with_cleaned_code
           (world true sample_config None None)
           (preset_auth (PStr spaced_code)) (preset_auth (PStr spaced_code)) []
           spaced_code eq_refl eq_refl eq_refl).
Defined.

(** C2 as the specification states it does not hold: a two-factor value
    made of one tab is whitespace-only, so the claim promises the password
    unchanged; the code keeps the tab and hands [hunter2:<TAB>] to the
    constructor. *)
Lemma C2_counterexample_tab_only :
  strip_whitespace Str.tab = ""
  /\ trivial_code strip_whitespace Str.tab = true
  /\ merge_rule strip_whitespace "hunter2" Str.tab = "hunter2"
  /\ map kw_password
       (constructor_calls
          (trace (run (get_reddit_instance (world true sample_config None None))
                      (preset_auth (PStr Str.tab)))))
     = [PStr ("hunter2:" +:+ Str.tab)]
  /\ PStr ("hunter2:" +:+ Str.tab) <> password (preset_auth (PStr Str.tab)).
Proof.
  repeat split; try reflexivity. discriminate.
Qed.

(** C2 (amended): for every credential bundle whose two-factor value is
    unset, empty, made of space characters only, or equal to [none]
    (whatever the case) once its space characters are removed, the
    constructor receives the bundle's password unchanged. *)
Theorem C2_password_unchanged_without_code
    (w : World) (s s1 : RedditAuth) (l1 : list event) :
  ensure_credentials w s [] = mkResult (Return tt) s1 l1 ->
  (two_factor_code s1 = PNone
   \/ exists code, two_factor_code s1 = PStr code
                   /\ trivial_code (Str.replace " " "") code = true) ->
  constructor_calls (trace (run (get_reddit_instance w) s))
  = [mkRedditArgs (client_id s1) (client_secret s1) (username s1)
       (password s1) (user_agent s1)].
Proof.
  intros Hread Hcode.
  rewrite (run_constructor_calls _ _ _ _ Hread). unfold kw_of.
  destruct Hcode as [Hnone|(code & Hcode & Htriv)].
  - rewrite Hnone, combined_password_unset. reflexivity.
  - rewrite Hcode, combined_password_rule, Htriv. reflexivity.
Qed.

Lemma C2_witness_none_with_spaces :
  constructor_calls
    (trace (run (get_reddit_instance (world true sample_config None None))
                (preset_auth (PStr " No ne "))))
  = [mkRedditArgs (PStr "abc") (PStr "xyz") (PStr "alice")
       (PStr "hunter2") default_user_agent].
Proof.
  exact (C2_password_unchanged_without_code
           (world true sample_config None None)
           (preset_auth (PStr " No ne ")) (preset_auth (PStr " No ne ")) []
           eq_refl
           (or_intror (ex_intro _ " No ne " (conj eq_refl eq_refl)))).
Defined.

(** ** C3: the missing credentials file *)

Definition documented_keys : list string :=
  ["client_id"; "client_secret"; "username"; "password"; "two_factor_code"].

Lemma missing_file_message_keys (path : string) :
  forallb (fun k => Str.contains k (missing_file_message path)) documented_keys = true.
Proof.
  unfold missing_file_message, documented_keys. cbn [forallb].
  rewrite !andb_true_iff. repeat split;
    apply contains_app_r, contains_app_r; reflexivity.
Qed.

(** C3: when the file-backed source is selected (the object is not an
    executable run and its bundle is incomplete) and the credentials file
    does not exist, the entry point prints the remediation text, which
    contains the five keys, and ends in [sys.exit(1)]: no session is
    returned, and nothing else is printed or called. *)
Theorem C3_missing_file_exits_1 (w : World) (s : RedditAuth) :
  is_exe s = false ->
  bundle_complete s = false ->
  os_path_exists w (file_path s) = false ->
  let r := run (get_reddit_instance w) s in
  res r = Exit 1
  /\ (forall x, res r <> Return x)
  /\ printed (trace r) = [missing_file_message (file_path s)]
  /\ forallb (fun k => Str.contains k (missing_file_message (file_path s)))
       documented_keys = true
  /\ trace r = [PathExists (file_path s); Print (missing_file_message (file_path s))].
Proof.
  intros Hexe Hinc Hmiss r.
  assert (Hr : r = mkResult (Exit 1) s
                 [PathExists (file_path s); Print (missing_file_message (file_path s))]).
  { subst r. rewrite get_reddit_instance_handled.
    destruct (read_file_cases w s [])
      as [[_ Hf]|[(Hex & _)|(Hex & _)]]; try congruence.
    assert (He : ensure_credentials w s [] = _read_credentials_from_file w s []).
    { rewrite ensure_incomplete by exact Hinc. rewrite Hexe. reflexivity. }
    rewrite try_read_raises with (e := FileNotFoundError
      ("Credentials file not found: " +:+ file_path s)); rewrite He, Hf; reflexivity. }
  rewrite Hr. cbn [res trace printed].
  repeat split; try reflexivity; try discriminate.
  apply missing_file_message_keys.
Qed.

Lemma C3_witness_fresh_script_run :
  let r := run (get_reddit_instance (world false sample_config None None)) script_auth in
  res r = Exit 1
  /\ (forall x, res r <> Return x)
  /\ printed (trace r) = [missing_file_message default_file_path]
  /\ forallb (fun k => Str.contains k (missing_file_message default_file_path))
       documented_keys = true
  /\ trace r = [PathExists default_file_path;
                Print (missing_file_message default_file_path)].
Proof.
  exact (C3_missing_file_exits_1 (world false sample_config None None) script_auth
           eq_refl eq_refl eq_refl).
Defined.

(** ** C4: the verification call is rejected *)

(** C4: when the session is built and [user.me()] raises an
    [OAuthException] or a [ResponseException], the entry point prints the
    credential-check message, then the text of the error, and ends in
    [sys.exit(1)]; no session is returned, and the constructor and the
    verification were each called once: nothing is retried. *)
Theorem C4_rejected_verification_exits_1
    (w : World) (s s1 : RedditAuth) (l1 : list event) (e : exn) :
  ensure_credentials w s [] = mkResult (Return tt) s1 l1 ->
  praw_Reddit w (kw_of s1) = None ->
  user_me w (mkReddit (kw_of s1)) = Some e ->
  is_auth_error e = true ->
  let r := run (get_reddit_instance w) s in
  res r = Exit 1
  /\ (forall x, res r <> Return x)
  /\ printed (trace r)
     = [retrieving_message; failure_message; "Error details: " +:+ exn_str e]
  /\ constructor_calls (trace r) = [kw_of s1]
  /\ verify_calls (trace r) = [mkReddit (kw_of s1)]
  /\ trace r = l1 ++ [Print retrieving_message; RedditInit (kw_of s1);
                      UserMe (mkReddit (kw_of s1)); Print failure_message;
                      Print ("Error details: " +:+ exn_str e)].
Proof.
  intros Hread Hinit Hme Herr r.
  destruct (ensure_trace w s []) as (t1 & Ht1 & Hc1 & Hv1 & Hp1).
  rewrite Hread in Ht1. cbn in Ht1. subst l1.
  assert (Hr : r = mkResult (Exit 1) (cleaned s1)
                 (t1 ++ [Print retrieving_message; RedditInit (kw_of s1);
                         UserMe (mkReddit (kw_of s1)); Print failure_message;
                         Print ("Error details: " +:+ exn_str e)])).
  { subst r. rewrite (run_after_read _ _ _ _ Hread).
    unfold auth_outcome, auth_trace. rewrite Hinit, Hme.
    rewrite handled_auth_error by exact Herr.
    rewrite <- app_assoc. reflexivity. }
  rewrite Hr. cbn [res trace].
  rewrite printed_app, constructor_calls_app, verify_calls_app, Hc1, Hv1, Hp1.
  repeat split; try reflexivity; discriminate.
Qed.

Lemma C4_witness_oauth_rejection :
  let r := run (get_reddit_instance
                  (world true sample_config None (Some (OAuthException "invalid_grant"))))
               script_auth in
  res r = Exit 1
  /\ (forall x, res r <> Return x)
  /\ printed (trace r)
     = [retrieving_message; failure_message; "Error details: invalid_grant"]
  /\ constructor_calls (trace r)
     = [mkRedditArgs (PStr "abc") (PStr "xyz") (PStr "alice") (PStr "hunter2")
          default_user_agent]
  /\ verify_calls (trace r)
     = [mkReddit (mkRedditArgs (PStr "abc") (PStr "xyz") (PStr "alice") (PStr "hunter2")
                    default_user_agent)]
  /\ trace r
     = [PathExists default_file_path; ConfigRead default_file_path;
        Print retrieving_message;
        RedditInit (mkRedditArgs (PStr "abc") (PStr "xyz") (PStr "alice")
                      (PStr "hunter2") default_user_agent);
        UserMe (mkReddit (mkRedditArgs (PStr "abc") (PStr "xyz") (PStr "alice")
                            (PStr "hunter2") default_user_agent));
        Print failure_message; Print "Error details: invalid_grant"].
Proof.
  exact (C4_rejected_verification_exits_1
           (world true sample_config None (Some (OAuthException "invalid_grant")))
           script_auth
           (with_credentials script_auth (PStr "abc") (PStr "xyz") (PStr "alice")
              (PStr "hunter2") (PStr "None"))
           [PathExists default_file_path; ConfigRead default_file_path]
           (OAuthException "invalid_grant")
           eq_refl eq_refl eq_refl eq_refl).
Defined.

(** ** C5, C6: the two sources *)

(** What the lookup of the option [k] in the [reddit] section of the
    object's file gives, as the value the module assigns: nothing when the
    option is in neither the section nor [DEFAULT], else its interpolated
    value or the error of its interpolation. *)
Definition as_pyval (r : exn + string) : exn + pyval :=
  match r with
  | inl e => inl e
  | inr v => inr (PStr v)
  end.

Definition file_value (w : World) (s : RedditAuth) (k : string) : option (exn + pyval) :=
  as_pyval <$> option_value (reddit_section w s) k.

(** The file the object points to exists and is read without error, it
    has a [reddit] section in which the lookups of the four required
    options give the values [v1]..[v4], and the lookup of
    [two_factor_code] gives the value [code], if the file has that
    option. *)
Definition file_supplies (w : World) (s : RedditAuth)
    (v1 v2 v3 v4 : pyval) (code : option string) : Prop :=
  os_path_exists w (file_path s) = true
  /\ file_rejected w s = None
  /\ has_section (file_parser w s) "reddit" = true
  /\ file_value w s "client_id" = Some (inr v1)
  /\ file_value w s "client_secret" = Some (inr v2)
  /\ file_value w s "username" = Some (inr v3)
  /\ file_value w s "password" = Some (inr v4)
  /\ option_value (reddit_section w s) "two_factor_code" = inr <$> code.

(** The value the lookup of [two_factor_code] gives, if it gives one. *)
Definition file_code (w : World) (s : RedditAuth) : option string :=
  match option_value (reddit_section w s) "two_factor_code" with
  | Some (inr code) => Some code
  | _ => None
  end.

(** The form gives the four required fields the values [v1]..[v4], and
    the two-factor field the value [code], if any. *)
Definition form_supplies (w : World)
    (v1 v2 v3 v4 : pyval) (code : option pyval) : Prop :=
  gui_get_credentials w !! "client id" = Some v1
  /\ gui_get_credentials w !! "client secret" = Some v2
  /\ gui_get_credentials w !! "username" = Some v3
  /\ gui_get_credentials w !! "password" = Some v4
  /\ gui_get_credentials w !! "two factor code" = code.

(** The source the flag selects gives the four required values and no
    two-factor value. *)
Definition source_supplies_no_code (w : World) (s : RedditAuth)
    (v1 v2 v3 v4 : pyval) : Prop :=
  if is_exe s then form_supplies w v1 v2 v3 v4 None
  else file_supplies w s v1 v2 v3 v4 None.

Lemma read_file_ok (w : World) (s : RedditAuth) (l : list event)
    (v1 v2 v3 v4 : pyval) (code : option string) :
  file_supplies w s v1 v2 v3 v4 code ->
  _read_credentials_from_file w s l
  = mkResult (Return tt)
      (with_credentials s v1 v2 v3 v4 (PStr (default "None" code)))
      (l ++ [PathExists (file_path s); ConfigRead (file_path s)]).
Proof.
  unfold file_supplies, file_value.
  intros (Hex & Hrd & Hsec & H1 & H2 & H3 & H4 & Hc).
  destruct (read_file_cases w s l)
    as [[Hex' _]|[(_ & (e & _ & Hwhy) & _)
                 |(_ & _ & _ & u1 & u2 & u3 & u4 & c & E1 & E2 & E3 & E4 & Ec & Hr)]].
  - congruence.
  - exfalso.
    destruct Hwhy as [(cls & Hr & _)|[(_ & Hs & _)
                     |(_ & _ & [(k & Hin & Hk & _)|[(k & Hin & Hk)|(_ & Hk)]])]].
    + congruence.
    + congruence.
    + unfold required_options in Hin. cbn in Hin.
      destruct Hin as [<-|[<-|[<-|[<-|[]]]]]; rewrite Hk in *; discriminate.
    + unfold required_options in Hin. cbn in Hin.
      destruct Hin as [<-|[<-|[<-|[<-|[]]]]]; rewrite Hk in *; discriminate.
    + rewrite Hk in Hc. destruct code; discriminate.
  - rewrite Hr.
    rewrite E1 in H1. rewrite E2 in H2. rewrite E3 in H3. rewrite E4 in H4.
    rewrite Ec in Hc.
    cbn in H1, H2, H3, H4.
    injection H1 as <-. injection H2 as <-. injection H3 as <-. injection H4 as <-.
    destruct c, code; try discriminate; [injection Hc as <-|]; reflexivity.
Qed.

Lemma read_gui_ok (w : World) (s : RedditAuth) (l : list event)
    (v1 v2 v3 v4 : pyval) (code : option pyval) :
  form_supplies w v1 v2 v3 v4 code ->
  _prompt_credentials_from_gui w s l
  = mkResult (Return tt)
      (with_credentials s v1 v2 v3 v4 (default (PStr "None") code))
      (l ++ [GuiPrompt]).
Proof.
  intros (H1 & H2 & H3 & H4 & Hc).
  destruct (read_gui_cases w s l)
    as [[(k & _ & Hin & Hk) _]|(u1 & u2 & u3 & u4 & E1 & E2 & E3 & E4 & Hr)].
  - unfold required_fields in Hin. cbn in Hin.
    destruct Hin as [<-|[<-|[<-|[<-|[]]]]]; congruence.
  - rewrite Hr. unfold dict_get. rewrite Hc. destruct code; cbn; congruence.
Qed.

Lemma read_credentials_eq (w : World) (s : RedditAuth) (l : list event) :
  _read_credentials w s l
  = if is_exe s then _prompt_credentials_from_gui w s l
    else _read_credentials_from_file w s l.
Proof.
  unfold _read_credentials, bind, get_self. cbn [res self_of trace].
  destruct (is_exe s); reflexivity.
Qed.

(** C5: when the selected source gives the four required values and no
    two-factor value, the two-factor attribute becomes the string [None],
    and the password the constructor then receives is the password of the
    bundle, unchanged.  For a script run the source is a well-formed file:
    one that exists, that [config.read] accepts, and in whose [reddit]
    section the lookups of the four required options return their
    interpolated values, [two_factor_code] being in neither the section
    nor [DEFAULT]; for an executable run it is the form. *)
Theorem C5_absent_code_defaults_to_None
    (w : World) (s : RedditAuth) (v1 v2 v3 v4 : pyval) :
  source_supplies_no_code w s v1 v2 v3 v4 ->
  let r := run (_read_credentials w) s in
  res r = Return tt
  /\ self_of r = with_credentials s v1 v2 v3 v4 (PStr "None")
  /\ two_factor_code (self_of r) = PStr "None"
  /\ kw_of (self_of r) = mkRedditArgs v1 v2 v3 v4 (user_agent s)
  /\ (bundle_complete s = false ->
      constructor_calls (trace (run (get_reddit_instance w) s))
      = [mkRedditArgs v1 v2 v3 v4 (user_agent s)]).
Proof.
  intros Hsrc r.
  assert (Hr : exists t, r = mkResult (Return tt)
                             (with_credentials s v1 v2 v3 v4 (PStr "None")) t).
  { subst r. unfold run. rewrite read_credentials_eq.
    unfold source_supplies_no_code in Hsrc. destruct (is_exe s).
    - rewrite (read_gui_ok _ _ _ _ _ _ _ _ Hsrc). eexists. reflexivity.
    - rewrite (read_file_ok _ _ _ _ _ _ _ _ Hsrc). eexists. reflexivity. }
  destruct Hr as (t & Hr). rewrite Hr. cbn [res self_of].
  repeat split; try reflexivity.
  intros Hinc.
  assert (He : ensure_credentials w s []
               = mkResult (Return tt) (with_credentials s v1 v2 v3 v4 (PStr "None")) t).
  { rewrite ensure_incomplete by exact Hinc. rewrite <- read_credentials_eq. exact Hr. }
  rewrite (run_constructor_calls _ _ _ _ He). reflexivity.
Qed.

Lemma C5_witness_file_without_code :
  let r := run (_read_credentials (world true sample_config None None)) script_auth in
  res r = Return tt
  /\ self_of r = with_credentials script_auth (PStr "abc") (PStr "xyz") (PStr "alice")
                   (PStr "hunter2") (PStr "None")
  /\ two_factor_code (self_of r) = PStr "None"
  /\ kw_of (self_of r) = mkRedditArgs (PStr "abc") (PStr "xyz") (PStr "alice")
                           (PStr "hunter2") default_user_agent
  /\ (bundle_complete script_auth = false ->
      constructor_calls
        (trace (run (get_reddit_instance (world true sample_config None None)) script_auth))
      = [mkRedditArgs (PStr "abc") (PStr "xyz") (PStr "alice") (PStr "hunter2")
           default_user_agent]).
Proof.
  apply (C5_absent_code_defaults_to_None (world true sample_config None None) script_auth).
  repeat split; vm_compute; reflexivity.
Defined.

Lemma consults_gui_app (t u : list event) :
  consults_gui (t ++ u) = consults_gui t || consults_gui u.
Proof. apply existsb_app. Qed.

Lemma consults_file_app (t u : list event) :
  consults_file (t ++ u) = consults_file t || consults_file u.
Proof. apply existsb_app. Qed.

(** What [_read_credentials] touches: the form alone for an executable
    run, the file system alone otherwise. *)
Lemma read_credentials_sources (w : World) (s : RedditAuth) :
  consults_gui (trace (run (_read_credentials w) s)) = is_exe s
  /\ consults_file (trace (run (_read_credentials w) s)) = negb (is_exe s).
Proof.
  unfold run. rewrite read_credentials_eq. destruct (is_exe s).
  - destruct (read_gui_cases w s [])
      as [[_ Ht]|(v1 & v2 & v3 & v4 & _ & _ & _ & _ & Hr)].
    + rewrite Ht. split; reflexivity.
    + rewrite Hr. split; reflexivity.
  - destruct (read_file_cases w s [])
      as [[_ Hr]|[(_ & _ & Ht)|(_ & _ & _ & v1 & v2 & v3 & v4 & code & _ & _ & _ & _ & _ & Hr)]].
    + rewrite Hr. split; reflexivity.
    + rewrite Ht. split; reflexivity.
    + rewrite Hr. split; reflexivity.
Qed.

(** The trace of the entry point is that of its read, if any, followed by
    events that touch neither source. *)
Lemma run_trace_split (w : World) (s : RedditAuth) :
  exists t, trace (run (get_reddit_instance w) s)
            = trace (ensure_credentials w s []) ++ t
            /\ consults_gui t = false /\ consults_file t = false.
Proof.
  rewrite get_reddit_instance_handled.
  destruct (ensure_credentials w s []) as [[[]|e|c] s1 l1] eqn:He.
  - rewrite (try_after_read _ _ _ _ He).
    destruct (handled_trace (mkResult (auth_outcome w s1) (cleaned s1)
                               (l1 ++ auth_trace w s1))) as (t & Ht & _).
    assert (Hp : forall r : result Reddit, exists u,
               trace (handled r) = trace r ++ u
               /\ consults_gui u = false /\ consults_file u = false).
    { clear. intros [[x|e|c] s t]; try (exists []; cbn; rewrite app_nil_r; repeat split; reflexivity).
      destruct (caught e) eqn:Hc.
      - destruct e; try discriminate Hc.
        + rewrite handled_missing_file. eexists. repeat split.
        + rewrite handled_auth_error by reflexivity. eexists. repeat split.
        + rewrite handled_auth_error by reflexivity. eexists. repeat split.
      - rewrite handled_uncaught by exact Hc. exists []. cbn.
        rewrite app_nil_r. repeat split. }
    destruct (Hp (mkResult (auth_outcome w s1) (cleaned s1) (l1 ++ auth_trace w s1)))
      as (u & Hu & Hg & Hf).
    exists (auth_trace w s1 ++ u). cbn [trace] in *. rewrite Hu, <- app_assoc.
    split; [reflexivity|].
    rewrite consults_gui_app, consults_file_app, Hg, Hf.
    unfold auth_trace. destruct (praw_Reddit w (kw_of s1)); [split; reflexivity|].
    destruct (user_me w _); split; reflexivity.
  - assert (Hres : res (ensure_credentials w s []) = Raise e) by (rewrite He; reflexivity).
    rewrite (try_read_raises _ _ _ Hres), He. cbn [self_of trace].
    destruct (caught e) eqn:Hc.
    + destruct e; try discriminate Hc.
      * rewrite handled_missing_file. eexists. repeat split.
      * rewrite handled_auth_error by reflexivity. eexists. repeat split.
      * rewrite handled_auth_error by reflexivity. eexists. repeat split.
    + rewrite handled_uncaught by exact Hc. exists []. cbn.
      rewrite app_nil_r. repeat split.
  - exfalso. apply (ensure_no_exit w s [] c). rewrite He. reflexivity.
Qed.

(** C6: [_read_credentials] consults exactly one source, the form when
    [is_exe] is set and the file otherwise, and when it returns the five
    credentials are those that source gave; over a whole run of the entry
    point the two sources are never both consulted. *)
Theorem C6_exactly_one_source (w : World) (s : RedditAuth) :
  let r := run (_read_credentials w) s in
  consults_gui (trace r) = is_exe s
  /\ consults_file (trace r) = negb (is_exe s)
  /\ (res r = Return tt ->
      exists v1 v2 v3 v4,
        if is_exe s
        then form_supplies w v1 v2 v3 v4 (gui_get_credentials w !! "two factor code")
             /\ self_of r
                = with_credentials s v1 v2 v3 v4
                    (dict_get (gui_get_credentials w) "two factor code" (PStr "None"))
        else file_supplies w s v1 v2 v3 v4 (file_code w s)
             /\ self_of r
                = with_credentials s v1 v2 v3 v4
                    (PStr (default "None" (file_code w s))))
  /\ consults_gui (trace (run (get_reddit_instance w) s))
     && consults_file (trace (run (get_reddit_instance w) s)) = false.
Proof.
  intros r. destruct (read_credentials_sources w s) as [Hg Hf].
  split; [exact Hg|]. split; [exact Hf|]. split.
  - subst r. unfold run. rewrite read_credentials_eq. destruct (is_exe s).
    + destruct (read_gui_cases w s [])
        as [[(k & Hk & _) _]|(v1 & v2 & v3 & v4 & H1 & H2 & H3 & H4 & Hr)].
      * rewrite Hk. discriminate.
      * intros _. exists v1, v2, v3, v4. rewrite Hr. repeat split; assumption.
    + destruct (read_file_cases w s [])
        as [[_ Hr]|[(_ & (k & Hk & _) & _)
                   |(Hex & Hrd & Hsec & v1 & v2 & v3 & v4 & code
                     & H1 & H2 & H3 & H4 & H5 & Hr)]].
      * rewrite Hr. discriminate.
      * rewrite Hk. discriminate.
      * intros _. exists (PStr v1), (PStr v2), (PStr v3), (PStr v4). rewrite Hr.
        assert (Hcode : file_code w s = code).
        { unfold file_code. rewrite H5. destruct code; reflexivity. }
        unfold file_supplies, file_value. rewrite Hcode, H1, H2, H3, H4, H5.
        repeat split; assumption.
  - destruct (run_trace_split w s) as (t & -> & Htg & Htf).
    rewrite consults_gui_app, consults_file_app, Htg, Htf, !orb_false_r.
    destruct (bundle_complete s) eqn:Hc.
    + rewrite ensure_complete by exact Hc. reflexivity.
    + rewrite ensure_incomplete by exact Hc. rewrite <- read_credentials_eq.
      fold (run (_read_credentials w) s). rewrite Hg, Hf. apply andb_negb_r.
Qed.

(** ** C7: the ways the entry point ends *)

(** The [try] block ends with an exception that an [except] clause
    catches exactly when the entry point ends in [sys.exit]. *)
Lemma run_exit_iff (w : World) (s : RedditAuth) (c : Z) :
  res (run (get_reddit_instance w) s) = Exit c
  <-> c = 1%Z /\ exists e, res (get_reddit_instance_try w s []) = Raise e
                           /\ caught e = true.
Proof.
  rewrite get_reddit_instance_handled.
  assert (Hne : forall c', res (get_reddit_instance_try w s []) <> Exit c').
  { intros c' H. destruct (ensure_credentials w s []) as [[[]|e|c0] s1 l1] eqn:He.
    - rewrite (try_after_read _ _ _ _ He) in H. cbn in H. unfold auth_outcome in H.
      destruct (praw_Reddit w (kw_of s1)); [discriminate|].
      destruct (user_me w _); discriminate.
    - assert (Hres : res (ensure_credentials w s []) = Raise e) by (rewrite He; reflexivity).
      rewrite (try_read_raises _ _ _ Hres) in H. discriminate.
    - apply (ensure_no_exit w s [] c0). rewrite He. reflexivity. }
  destruct (get_reddit_instance_try w s []) as [[x|e|c'] s1 t1] eqn:Ht.
  - cbn. split; [discriminate | intros (_ & e & He & _); discriminate].
  - destruct (caught e) eqn:Hc.
    + destruct (handled_caught e s1 t1 Hc) as [Hx _]. rewrite Hx. split.
      * intros [= <-]. split; [reflexivity|]. exists e. split; [reflexivity|exact Hc].
      * intros (-> & _). reflexivity.
    + rewrite handled_uncaught by exact Hc. cbn. split; [discriminate|].
      intros (_ & e' & [= <-] & Hc'). congruence.
  - exfalso. apply (Hne c'). reflexivity.
Qed.

(** The two causes of a caught exception: the missing file of a script
    run, or an exception of a caught class raised by praw. *)
Definition exit_cause (w : World) (s : RedditAuth) : Prop :=
  (is_exe s = false /\ bundle_complete s = false
   /\ os_path_exists w (file_path s) = false)
  \/ (exists s1 l1 e,
        ensure_credentials w s [] = mkResult (Return tt) s1 l1
        /\ auth_outcome w s1 = Raise e /\ caught e = true).

Lemma try_caught_iff (w : World) (s : RedditAuth) :
  (exists e, res (get_reddit_instance_try w s []) = Raise e /\ caught e = true)
  <-> exit_cause w s.
Proof.
  unfold exit_cause. split.
  - intros (e & He & Hc).
    destruct (ensure_credentials w s []) as [[[]|e'|c0] s1 l1] eqn:Hen.
    + right. exists s1, l1, e. rewrite (try_after_read _ _ _ _ Hen) in He.
      repeat split; assumption.
    + left. assert (Hres : res (ensure_credentials w s []) = Raise e')
        by (rewrite Hen; reflexivity).
      rewrite (try_read_raises _ _ _ Hres) in He. cbn in He. injection He as ->.
      destruct (ensure_raise_caught w s [] e Hres Hc) as (H1 & H2 & H3 & _).
      repeat split; assumption.
    + exfalso. apply (ensure_no_exit w s [] c0). rewrite Hen. reflexivity.
  - intros [(Hexe & Hinc & Hmiss)|(s1 & l1 & e & Hen & Ho & Hc)].
    + exists (FileNotFoundError ("Credentials file not found: " +:+ file_path s)).
      split; [|reflexivity].
      assert (He : ensure_credentials w s [] = _read_credentials_from_file w s []).
      { rewrite ensure_incomplete by exact Hinc. rewrite Hexe. reflexivity. }
      destruct (read_file_cases w s [])
        as [[_ Hf]|[(Hex & _)|(Hex & _)]]; try congruence.
      rewrite try_read_raises with (e := FileNotFoundError
        ("Credentials file not found: " +:+ file_path s)); rewrite He, Hf; reflexivity.
    + exists e. rewrite (try_after_read _ _ _ _ Hen). split; assumption.
Qed.

(** C7: the entry point ends in [sys.exit] with no code other than 1, and
    does so exactly on the missing credentials file of a script run or on
    an exception of a caught class raised by praw (the authentication
    failure); it returns a session, which leaves the process to end with
    code 0, only when the constructor and the verification call both
    succeeded on it; every other exception leaves the entry point as it
    was raised, without any exit code of the entry point's own. *)
Theorem C7_exit_codes (w : World) (s : RedditAuth) :
  let r := run (get_reddit_instance w) s in
  (forall c, res r = Exit c -> c = 1%Z)
  /\ (res r = Exit 1 <-> exit_cause w s)
  /\ (forall x, res r = Return x ->
        praw_Reddit w (reddit_kw x) = None /\ user_me w x = None
        /\ printed (trace r) = [retrieving_message; success_message])
  /\ (forall e, res r = Raise e ->
        caught e = false /\ res (get_reddit_instance_try w s []) = Raise e).
Proof.
  intros r. subst r. split; [|split; [|split]].
  - intros c H. apply run_exit_iff in H. tauto.
  - rewrite run_exit_iff, try_caught_iff. tauto.
  - intros x. rewrite get_reddit_instance_handled.
    destruct (ensure_credentials w s []) as [[[]|e|c0] s1 l1] eqn:He.
    + rewrite (try_after_read _ _ _ _ He).
      destruct (ensure_trace w s []) as (t1 & Ht1 & _ & _ & Hp1).
      rewrite He in Ht1. cbn in Ht1. subst l1.
      unfold auth_outcome, auth_trace.
      destruct (praw_Reddit w (kw_of s1)) as [e|] eqn:Hi.
      * destruct (caught e) eqn:Hc.
        -- destruct (handled_caught e (cleaned s1)
                       (t1 ++ [Print retrieving_message; RedditInit (kw_of s1)]) Hc)
             as [Hx _]. rewrite Hx. discriminate.
        -- rewrite handled_uncaught by exact Hc. discriminate.
      * destruct (user_me w (mkReddit (kw_of s1))) as [e|] eqn:Hm.
        -- destruct (caught e) eqn:Hc.
           ++ destruct (handled_caught e (cleaned s1)
                          (t1 ++ [Print retrieving_message; RedditInit (kw_of s1);
                                  UserMe (mkReddit (kw_of s1))]) Hc)
                as [Hx _]. rewrite Hx. discriminate.
           ++ rewrite handled_uncaught by exact Hc. discriminate.
        -- rewrite handled_return. cbn [res trace]. intros [= <-].
           cbn [reddit_kw]. rewrite printed_app, Hp1. repeat split; assumption.
    + assert (Hres : res (ensure_credentials w s []) = Raise e) by (rewrite He; reflexivity).
      rewrite (try_read_raises _ _ _ Hres), He. cbn [self_of trace].
      destruct (caught e) eqn:Hc.
      * destruct (handled_caught e s1 l1 Hc) as [Hx _]. rewrite Hx. discriminate.
      * rewrite handled_uncaught by exact Hc. discriminate.
    + exfalso. apply (ensure_no_exit w s [] c0). rewrite He. reflexivity.
  - intros e. rewrite get_reddit_instance_handled.
    destruct (get_reddit_instance_try w s []) as [[x|e'|c'] s1 t1] eqn:Ht.
    + cbn. discriminate.
    + destruct (caught e') eqn:Hc.
      * destruct (handled_caught e' s1 t1 Hc) as [Hx _]. rewrite Hx. discriminate.
      * rewrite handled_uncaught by exact Hc. cbn. intros [= <-]. split; [exact Hc|reflexivity].
    + cbn. discriminate.
Qed.

(** ** C8: the required fields at the constructor *)

(** C8 as stated does not hold: a credentials file whose [password] option
    has an empty value is read without complaint, the constructor is
    reached, and the bundle it is called on has an empty password. *)
Lemma C8_counterexample_empty_password :
  let r := run (get_reddit_instance (world true empty_password_config None None))
               script_auth in
  constructor_calls (trace r)
  = [mkRedditArgs (PStr "abc") (PStr "xyz") (PStr "alice") (PStr "") default_user_agent]
  /\ password (self_of r) = PStr ""
  /\ bundle_complete (self_of r) = false.
Proof. repeat split; vm_compute; reflexivity. Qed.

Lemma bundle_complete_cleaned (s : RedditAuth) :
  bundle_complete (cleaned s) = bundle_complete s.
Proof.
  unfold cleaned. destruct (truthy (two_factor_code s)); [|reflexivity].
  destruct s; reflexivity.
Qed.

Lemma truthy_combined_password (pw code : pyval) :
  truthy pw = true -> truthy (combined_password pw code) = true.
Proof.
  intros H. unfold combined_password.
  destruct (truthy code && _); [|exact H].
  destruct pw as [|[|c p]]; try discriminate H. reflexivity.
Qed.

(** C8 (amended): for every invocation reaching the authentication call
    whose bundle, as found on entry or as the selected source supplied it,
    has its four required fields non-empty, the four fields are non-empty
    at the moment the constructor is invoked, and so are the arguments it
    receives; the code does not check what a source supplied. *)
Theorem C8_fields_nonempty_when_supplied
    (w : World) (s s1 : RedditAuth) (l1 : list event) :
  ensure_credentials w s [] = mkResult (Return tt) s1 l1 ->
  bundle_complete s1 = true ->
  let r := run (get_reddit_instance w) s in
  bundle_complete (self_of r) = true
  /\ exists kw, constructor_calls (trace r) = [kw]
       /\ kw_client_id kw = client_id s1
       /\ kw_client_secret kw = client_secret s1
       /\ kw_username kw = username s1
       /\ all [kw_client_id kw; kw_client_secret kw; kw_username kw; kw_password kw]
          = true.
Proof.
  intros Hread Hc r. subst r. split.
  - rewrite (run_after_read _ _ _ _ Hread), handled_self. cbn [self_of].
    rewrite bundle_complete_cleaned. exact Hc.
  - exists (kw_of s1). rewrite (run_constructor_calls _ _ _ _ Hread).
    repeat split. unfold bundle_complete, all in Hc. cbn [forallb] in Hc.
    rewrite !andb_true_iff in Hc. destruct Hc as (H1 & H2 & H3 & H4 & _).
    unfold all, kw_of. cbn [forallb kw_client_id kw_client_secret kw_username kw_password].
    rewrite H1, H2, H3, (truthy_combined_password _ _ H4). reflexivity.
Qed.

Lemma C8_witness_preset_bundle :
  let r := run (get_reddit_instance (world true sample_config None None))
               (preset_auth (PStr spaced_code)) in
  bundle_complete (self_of r) = true
  /\ exists kw, constructor_calls (trace r) = [kw]
       /\ kw_client_id kw = PStr "abc"
       /\ kw_client_secret kw = PStr "xyz"
       /\ kw_username kw = PStr "alice"
       /\ all [kw_client_id kw; kw_client_secret kw; kw_username kw; kw_password kw]
          = true.
Proof.
  exact (C8_fields_nonempty_when_supplied (world true sample_config None None)
           (preset_auth (PStr spaced_code)) (preset_auth (PStr spaced_code)) []
           eq_refl eq_refl).
Defined.

(** ** C9: the clean-up is stored, and is idempotent *)

Lemma cleaned_two_factor_code (s : RedditAuth) :
  two_factor_code (cleaned s) = clean_two_factor_code (two_factor_code s).
Proof.
  unfold cleaned. destruct (truthy (two_factor_code s)) eqn:Ht.
  - destruct s; reflexivity.
  - unfold clean_two_factor_code. rewrite Ht. reflexivity.
Qed.

Lemma cleaned_password (s : RedditAuth) : password (cleaned s) = password s.
Proof.
  unfold cleaned. destruct (truthy (two_factor_code s)); [|reflexivity].
  destruct s; reflexivity.
Qed.

Lemma authenticate_calls (w : World) (s : RedditAuth) :
  constructor_calls (trace (authenticate w s [])) = [kw_of s].
Proof. rewrite authenticate_eq. cbn [trace app]. apply auth_trace_calls. Qed.

(** C9: once the credentials are there, the entry point leaves the object
    with its two-factor attribute replaced by the value without spaces
    (the password attribute is untouched), cleaning that stored value
    again changes nothing, and assembling the password again on the object
    as the run left it gives the password of the first time. *)
Theorem C9_cleanup_persists_and_is_idempotent
    (w : World) (s s1 : RedditAuth) (l1 : list event) :
  ensure_credentials w s [] = mkResult (Return tt) s1 l1 ->
  let r := run (get_reddit_instance w) s in
  two_factor_code (self_of r) = clean_two_factor_code (two_factor_code s1)
  /\ password (self_of r) = password s1
  /\ clean_two_factor_code (two_factor_code (self_of r)) = two_factor_code (self_of r)
  /\ kw_password (kw_of (self_of r)) = kw_password (kw_of s1)
  /\ constructor_calls (trace (authenticate w (self_of r) []))
     = constructor_calls (trace (authenticate w s1 [])).
Proof.
  intros Hread r.
  assert (Hs : self_of r = cleaned s1).
  { subst r. rewrite (run_after_read _ _ _ _ Hread), handled_self. reflexivity. }
  rewrite Hs, cleaned_two_factor_code, cleaned_password, clean_two_factor_code_idem,
    !authenticate_calls, kw_of_cleaned.
  repeat split.
Qed.

Lemma C9_witness_spaced_code :
  let r := run (get_reddit_instance (world true sample_config None None))
               (preset_auth (PStr spaced_code)) in
  two_factor_code (self_of r) = PStr "123456"
  /\ password (self_of r) = PStr "hunter2"
  /\ clean_two_factor_code (two_factor_code (self_of r)) = two_factor_code (self_of r)
  /\ kw_password (kw_of (self_of r)) = PStr "hunter2:123456"
  /\ constructor_calls
       (trace (authenticate (world true sample_config None None) (self_of r) []))
     = constructor_calls
         (trace (authenticate (world true sample_config None None)
                   (preset_auth (PStr spaced_code)) [])).
Proof.
  exact (C9_cleanup_persists_and_is_idempotent (world true sample_config None None)
           (preset_auth (PStr spaced_code)) (preset_auth (PStr spaced_code)) [] eq_refl).
Defined.

(** ** C10: a file without the section or a required option *)






(** A file without any section header is rejected by [config.read]; the
    error leaves the entry point in the same way. *)
Example rejected_file_propagates :
  let w := mkWorld sample_form (fun _ => true)
             (fun _ => Rejected MissingSectionHeaderError)
             (fun _ => None) (fun _ => None) in
  run (get_reddit_instance w) script_auth
  = mkResult (Raise (ReadError MissingSectionHeaderError default_file_path))
      script_auth [PathExists default_file_path; ConfigRead default_file_path].
Proof. reflexivity. Qed.

(** * Further properties of the entry point *)

(** ** The paths of [authenticate] *)

(** When the constructor and the verification call both succeed, the
    entry point returns the session built from the bundle and prints the
    progress line and one success line; the constructor and [user.me()]
    were each called once. *)
Theorem success_returns_session (w : World) (s s1 : RedditAuth) (l1 : list event) :
  ensure_credentials w s [] = mkResult (Return tt) s1 l1 ->
  praw_Reddit w (kw_of s1) = None ->
  user_me w (mkReddit (kw_of s1)) = None ->
  let r := run (get_reddit_instance w) s in
  res r = Return (mkReddit (kw_of s1))
  /\ printed (trace r) = [retrieving_message; success_message]
  /\ constructor_calls (trace r) = [kw_of s1]
  /\ verify_calls (trace r) = [mkReddit (kw_of s1)]
  /\ kw_user_agent (kw_of s1) = user_agent s1.
Proof.
  intros Hread Hinit Hme r.
  destruct (ensure_trace w s []) as (t1 & Ht1 & Hc1 & Hv1 & Hp1).
  rewrite Hread in Ht1. cbn in Ht1. subst l1.
  assert (Hr : r = mkResult (Return (mkReddit (kw_of s1))) (cleaned s1)
                 (t1 ++ [Print retrieving_message; RedditInit (kw_of s1);
                         UserMe (mkReddit (kw_of s1)); Print success_message])).
  { subst r. rewrite (run_after_read _ _ _ _ Hread).
    unfold auth_outcome, auth_trace. rewrite Hinit, Hme. reflexivity. }
  rewrite Hr. cbn [res trace].
  rewrite printed_app, constructor_calls_app, verify_calls_app, Hc1, Hv1, Hp1.
  repeat split.
Qed.

Lemma success_returns_session_witness :
  let r := run (get_reddit_instance (world true sample_config None None)) script_auth in
  res r = Return (mkReddit (mkRedditArgs (PStr "abc") (PStr "xyz") (PStr "alice")
                              (PStr "hunter2") default_user_agent))
  /\ printed (trace r) = [retrieving_message; success_message]
  /\ constructor_calls (trace r)
     = [mkRedditArgs (PStr "abc") (PStr "xyz") (PStr "alice") (PStr "hunter2")
          default_user_agent]
  /\ verify_calls (trace r)
     = [mkReddit (mkRedditArgs (PStr "abc") (PStr "xyz") (PStr "alice") (PStr "hunter2")
                    default_user_agent)]
  /\ default_user_agent = default_user_agent.
Proof.
  exact (success_returns_session (world true sample_config None None) script_auth
           (with_credentials script_auth (PStr "abc") (PStr "xyz") (PStr "alice")
              (PStr "hunter2") (PStr "None"))
           [PathExists default_file_path; ConfigRead default_file_path]
           eq_refl eq_refl eq_refl).
Defined.

(** When the constructor itself raises an [OAuthException] or a
    [ResponseException], the entry point prints the same two lines and
    ends in [sys.exit(1)], and [user.me()] is never called. *)
Theorem rejected_constructor_exits_1
    (w : World) (s s1 : RedditAuth) (l1 : list event) (e : exn) :
  ensure_credentials w s [] = mkResult (Return tt) s1 l1 ->
  praw_Reddit w (kw_of s1) = Some e ->
  is_auth_error e = true ->
  let r := run (get_reddit_instance w) s in
  res r = Exit 1
  /\ verify_calls (trace r) = []
  /\ constructor_calls (trace r) = [kw_of s1]
  /\ printed (trace r)
     = [retrieving_message; failure_message; "Error details: " +:+ exn_str e].
Proof.
  intros Hread Hinit Herr r.
  destruct (ensure_trace w s []) as (t1 & Ht1 & Hc1 & Hv1 & Hp1).
  rewrite Hread in Ht1. cbn in Ht1. subst l1.
  assert (Hr : r = mkResult (Exit 1) (cleaned s1)
                 (t1 ++ [Print retrieving_message; RedditInit (kw_of s1);
                         Print failure_message;
                         Print ("Error details: " +:+ exn_str e)])).
  { subst r. rewrite (run_after_read _ _ _ _ Hread).
    unfold auth_outcome, auth_trace. rewrite Hinit.
    rewrite handled_auth_error by exact Herr.
    rewrite <- app_assoc. reflexivity. }
  rewrite Hr. cbn [res trace].
  rewrite printed_app, constructor_calls_app, verify_calls_app, Hc1, Hv1, Hp1.
  repeat split.
Qed.

Lemma rejected_constructor_exits_1_witness :
  let r := run (get_reddit_instance
                  (world true sample_config (Some (ResponseException "401")) None))
               script_auth in
  res r = Exit 1
  /\ verify_calls (trace r) = []
  /\ constructor_calls (trace r)
     = [mkRedditArgs (PStr "abc") (PStr "xyz") (PStr "alice") (PStr "hunter2")
          default_user_agent]
  /\ printed (trace r) = [retrieving_message; failure_message; "Error details: 401"].
Proof.
  exact (rejected_constructor_exits_1
           (world true sample_config (Some (ResponseException "401")) None) script_auth
           (with_credentials script_auth (PStr "abc") (PStr "xyz") (PStr "alice")
              (PStr "hunter2") (PStr "None"))
           [PathExists default_file_path; ConfigRead default_file_path]
           (ResponseException "401") eq_refl eq_refl eq_refl).
Defined.

(** An exception of praw of any other class (a network failure, say) is
    not turned into an exit: it leaves the entry point as raised, after
    the progress line alone was printed. *)
Theorem other_exception_propagates
    (w : World) (s s1 : RedditAuth) (l1 : list event) (e : exn) :
  ensure_credentials w s [] = mkResult (Return tt) s1 l1 ->
  auth_outcome w s1 = Raise e ->
  caught e = false ->
  let r := run (get_reddit_instance w) s in
  res r = Raise e
  /\ printed (trace r) = [retrieving_message]
  /\ constructor_calls (trace r) = [kw_of s1].
Proof.
  intros Hread Hout Hc r.
  destruct (ensure_trace w s []) as (t1 & Ht1 & Hc1 & Hv1 & Hp1).
  rewrite Hread in Ht1. cbn in Ht1. subst l1.
  assert (Hr : r = mkResult (Raise e) (cleaned s1) (t1 ++ auth_trace w s1)).
  { subst r. rewrite (run_after_read _ _ _ _ Hread), Hout.
    apply handled_uncaught. exact Hc. }
  rewrite Hr. cbn [res trace].
  rewrite printed_app, constructor_calls_app, Hc1, Hp1, auth_trace_calls.
  repeat split. unfold auth_trace. unfold auth_outcome in Hout.
  destruct (praw_Reddit w (kw_of s1)); [reflexivity|].
  destruct (user_me w (mkReddit (kw_of s1))); [reflexivity|discriminate].
Qed.

Lemma other_exception_propagates_witness :
  let r := run (get_reddit_instance
                  (world true sample_config None
                     (Some (OtherException "RequestException" "connection reset"))))
               script_auth in
  res r = Raise (OtherException "RequestException" "connection reset")
  /\ printed (trace r) = [retrieving_message]
  /\ constructor_calls (trace r)
     = [mkRedditArgs (PStr "abc") (PStr "xyz") (PStr "alice") (PStr "hunter2")
          default_user_agent].
Proof.
  exact (other_exception_propagates
           (world true sample_config None
              (Some (OtherException "RequestException" "connection reset")))
           script_auth
           (with_credentials script_auth (PStr "abc") (PStr "xyz") (PStr "alice")
              (PStr "hunter2") (PStr "None"))
           [PathExists default_file_path; ConfigRead default_file_path]
           (OtherException "RequestException" "connection reset")
           eq_refl eq_refl eq_refl).
Defined.

(** ** When the sources are read *)

(** An object as [__init__] leaves it has no credentials, so its first
    call of the entry point always goes to the source its flag selects:
    the form for an executable run, the file system otherwise. *)
Theorem fresh_object_reads_its_source
    (w : World) (exe : bool) (path agent : string) :
  let r := run (get_reddit_instance w) (__init__ exe path agent) in
  consults_gui (trace r) = exe
  /\ consults_file (trace r) = negb exe
  /\ exists t, trace r = (if exe then GuiPrompt else PathExists path) :: t.
Proof.
  intros r. subst r. set (s := __init__ exe path agent).
  assert (Hinc : bundle_complete s = false) by reflexivity.
  destruct (run_trace_split w s) as (t & Ht & Htg & Htf). rewrite Ht.
  rewrite consults_gui_app, consults_file_app, Htg, Htf, !orb_false_r.
  rewrite ensure_incomplete by exact Hinc. rewrite <- read_credentials_eq.
  fold (run (_read_credentials w) s).
  destruct (read_credentials_sources w s) as [Hg Hf].
  split; [exact Hg|]. split; [exact Hf|].
  unfold run. rewrite read_credentials_eq. subst s. cbn [is_exe __init__].
  destruct exe.
  - destruct (read_gui_cases w (__init__ true path agent) [])
      as [[_ Hr]|(v1 & v2 & v3 & v4 & _ & _ & _ & _ & Hr)]; rewrite Hr;
      eexists; reflexivity.
  - destruct (read_file_cases w (__init__ false path agent) [])
      as [[_ Hr]|[(_ & _ & Hr)|(_ & _ & _ & v1 & v2 & v3 & v4 & code & _ & _ & _ & _ & _ & Hr)]];
      rewrite Hr; eexists; reflexivity.
Qed.

(** An object whose four required attributes are already set is never
    refreshed: the entry point consults neither the form nor the file
    system (a missing file goes unnoticed) and calls the constructor on
    the attributes as they are. *)
Theorem complete_bundle_skips_sources (w : World) (s : RedditAuth) :
  bundle_complete s = true ->
  let r := run (get_reddit_instance w) s in
  consults_gui (trace r) = false
  /\ consults_file (trace r) = false
  /\ constructor_calls (trace r) = [kw_of s]
  /\ self_of r = cleaned s.
Proof.
  intros Hc r. subst r.
  pose proof (ensure_complete w s [] Hc) as He.
  split; [|split; [|split]].
  - destruct (run_trace_split w s) as (t & Ht & Htg & _).
    rewrite Ht, consults_gui_app, Htg, He. reflexivity.
  - destruct (run_trace_split w s) as (t & Ht & _ & Htf).
    rewrite Ht, consults_file_app, Htf, He. reflexivity.
  - apply (run_constructor_calls _ _ _ _ He).
  - rewrite (run_after_read _ _ _ _ He), handled_self. reflexivity.
Qed.

Lemma complete_bundle_skips_sources_witness :
  let w := world false sample_config None None in
  let r := run (get_reddit_instance w) (preset_auth (PStr spaced_code)) in
  os_path_exists w (file_path (preset_auth (PStr spaced_code))) = false
  /\ consults_gui (trace r) = false
  /\ consults_file (trace r) = false
  /\ constructor_calls (trace r) = [kw_of (preset_auth (PStr spaced_code))]
  /\ self_of r = cleaned (preset_auth (PStr spaced_code)).
Proof.
  split; [reflexivity|].
  apply (complete_bundle_skips_sources
           (world false sample_config None None) (preset_auth (PStr spaced_code))).
  reflexivity.
Defined.

(** ** Reads that stop half-way *)

(** The attributes the form fills, in the order of the assignments of
    lines 61-64, each with the key its value is looked up under. *)
Definition gui_assignments : list (string * (pyval -> RedditAuth -> RedditAuth)) :=
  [("client id", set_client_id); ("client secret", set_client_secret);
   ("username", set_username); ("password", set_password)].

(** Assigning in order until a key has no value: the object reached, and
    the key that stopped the assignments, if one did. *)
Fixpoint assign_in_order (look : string -> option pyval)
    (fs : list (string * (pyval -> RedditAuth -> RedditAuth)))
    (s : RedditAuth) : RedditAuth * option string :=
  match fs with
  | [] => (s, None)
  | (k, set) :: fs' =>
      match look k with
      | Some v => assign_in_order look fs' (set v s)
      | None => (s, Some k)
      end
  end.

(** The attributes the file fills, in the order of the assignments of
    lines 83-87, each with the option its value is looked up under and
    the fallback of the lookup, if it has one. *)
Definition file_lookups
    : list (string * option pyval * (pyval -> RedditAuth -> RedditAuth)) :=
  [("client_id", None, set_client_id); ("client_secret", None, set_client_secret);
   ("username", None, set_username); ("password", None, set_password);
   ("two_factor_code", Some (PStr "None"), set_two_factor_code)].

(** Looking up and assigning in order until a lookup raises: the object
    reached, and the exception that stopped the assignments, if one did
    (the error of the interpolation of a value, or the [KeyError] of an
    option without value and without fallback). *)
Fixpoint read_in_order (look : string -> option (exn + pyval))
    (fs : list (string * option pyval * (pyval -> RedditAuth -> RedditAuth)))
    (s : RedditAuth) : RedditAuth * option exn :=
  match fs with
  | [] => (s, None)
  | (k, fallback, set) :: fs' =>
      match look k, fallback with
      | Some (inr v), _ => read_in_order look fs' (set v s)
      | Some (inl e), _ => (s, Some e)
      | None, Some d => read_in_order look fs' (set d s)
      | None, None => (s, Some (KeyError k))
      end
  end.

(** What the form gives for a field. *)
Definition form_value (w : World) (k : string) : option pyval :=
  gui_get_credentials w !! k.

(** The configuration of an object, which no method assigns. *)
Definition same_configuration (s s' : RedditAuth) : Prop :=
  is_exe s' = is_exe s /\ file_path s' = file_path s /\ user_agent s' = user_agent s.

Lemma read_file_eq (w : World) (s : RedditAuth) (l : list event) :
  os_path_exists w (file_path s) = true ->
  file_rejected w s = None ->
  has_section (file_parser w s) "reddit" = true ->
  _read_credentials_from_file w s l
  = match read_in_order (file_value w s) file_lookups s with
    | (s', Some e) =>
        mkResult (Raise e) s'
          (l ++ [PathExists (file_path s); ConfigRead (file_path s)])
    | (s', None) =>
        mkResult (Return tt) s'
          (l ++ [PathExists (file_path s); ConfigRead (file_path s)])
    end.
Proof.
  unfold file_value, reddit_section, file_parser, file_rejected.
  intros Hex Hrd Hsec.
  cbn [read_in_order file_lookups].
  unfold _read_credentials_from_file. do 2 step. rewrite Hex. cbn [negb].
  step. rewrite <- app_assoc. cbn [app].
  destruct (config_read w (file_path s)) as [cfg|cls]; [|discriminate Hrd].
  cbn [parser_of] in *.
  step. rewrite Hsec. step.
  destruct (option_value _ "client_id") as [[e1|v1]|]; [reflexivity| |reflexivity].
  do 2 step. rewrite Hsec. step.
  destruct (option_value _ "client_secret") as [[e2|v2]|]; [reflexivity| |reflexivity].
  do 2 step. rewrite Hsec. step.
  destruct (option_value _ "username") as [[e3|v3]|]; [reflexivity| |reflexivity].
  do 2 step. rewrite Hsec. step.
  destruct (option_value _ "password") as [[e4|v4]|]; [reflexivity| |reflexivity].
  do 2 step. rewrite Hsec. step.
  destruct (option_value _ "two_factor_code") as [[e5|v5]|]; reflexivity.
Qed.

Lemma read_gui_eq (w : World) (s : RedditAuth) (l : list event) :
  _prompt_credentials_from_gui w s l
  = match assign_in_order (form_value w) gui_assignments s with
    | (s', Some k) => mkResult (Raise (KeyError k)) s' (l ++ [GuiPrompt])
    | (s', None) =>
        mkResult (Return tt)
          (set_two_factor_code
             (dict_get (gui_get_credentials w) "two factor code" (PStr "None")) s')
          (l ++ [GuiPrompt])
    end.
Proof.
  unfold form_value. cbn [assign_in_order gui_assignments].
  unfold _prompt_credentials_from_gui. do 2 step.
  destruct (gui_get_credentials w !! "client id") as [v1|]; [|reflexivity].
  do 2 step.
  destruct (gui_get_credentials w !! "client secret") as [v2|]; [|reflexivity].
  do 2 step.
  destruct (gui_get_credentials w !! "username") as [v3|]; [|reflexivity].
  do 2 step.
  destruct (gui_get_credentials w !! "password") as [v4|]; [|reflexivity].
  step. reflexivity.
Qed.

Lemma read_file_no_section (w : World) (s : RedditAuth) (l : list event) :
  os_path_exists w (file_path s) = true ->
  file_rejected w s = None ->
  has_section (file_parser w s) "reddit" = false ->
  _read_credentials_from_file w s l
  = mkResult (Raise (KeyError "reddit")) s
      (l ++ [PathExists (file_path s); ConfigRead (file_path s)]).
Proof.
  unfold file_parser, file_rejected. intros Hex Hrd Hsec.
  unfold _read_credentials_from_file. do 2 step.
  rewrite Hex. cbn [negb]. step. rewrite <- app_assoc. cbn [app].
  destruct (config_read w (file_path s)) as [cfg|cls]; [|discriminate Hrd].
  cbn [parser_of] in *. step. rewrite Hsec. reflexivity.
Qed.

Lemma read_file_rejected (w : World) (s : RedditAuth) (l : list event)
    (cls : read_error) :
  os_path_exists w (file_path s) = true ->
  file_rejected w s = Some cls ->
  _read_credentials_from_file w s l
  = mkResult (Raise (ReadError cls (file_path s))) s
      (l ++ [PathExists (file_path s); ConfigRead (file_path s)]).
Proof.
  unfold file_rejected. intros Hex Hrd.
  unfold _read_credentials_from_file. do 2 step.
  rewrite Hex. cbn [negb]. step. rewrite <- app_assoc. cbn [app].
  destruct (config_read w (file_path s)) as [cfg|cls']; [discriminate Hrd|].
  injection Hrd as ->. reflexivity.
Qed.

Lemma same_configuration_refl (s : RedditAuth) : same_configuration s s.
Proof. repeat split. Qed.

Lemma same_configuration_trans (s1 s2 s3 : RedditAuth) :
  same_configuration s1 s2 -> same_configuration s2 s3 -> same_configuration s1 s3.
Proof.
  intros (A1 & A2 & A3) (B1 & B2 & B3). repeat split; congruence.
Qed.

Lemma same_configuration_cleaned (s : RedditAuth) : same_configuration s (cleaned s).
Proof.
  unfold cleaned. destruct (truthy (two_factor_code s)); destruct s; repeat split.
Qed.

Lemma same_configuration_code (s : RedditAuth) (v : pyval) :
  same_configuration s (set_two_factor_code v s).
Proof. destruct s; repeat split. Qed.

(** Assignments in order touch the credentials only. *)
Lemma assign_in_order_configuration (look : string -> option pyval) (s : RedditAuth) :
  same_configuration s (fst (assign_in_order look gui_assignments s)).
Proof.
  cbn [assign_in_order gui_assignments].
  destruct (look "client id"); [|apply same_configuration_refl].
  destruct (look "client secret"); [|destruct s; repeat split].
  destruct (look "username"); [|destruct s; repeat split].
  destruct (look "password"); destruct s; repeat split.
Qed.

Lemma read_in_order_configuration (look : string -> option (exn + pyval))
    (s : RedditAuth) :
  same_configuration s (fst (read_in_order look file_lookups s)).
Proof.
  cbn [read_in_order file_lookups].
  destruct (look "client_id") as [[?|?]|]; try solve [apply same_configuration_refl].
  destruct (look "client_secret") as [[?|?]|]; try solve [destruct s; repeat split].
  destruct (look "username") as [[?|?]|]; try solve [destruct s; repeat split].
  destruct (look "password") as [[?|?]|]; try solve [destruct s; repeat split].
  destruct (look "two_factor_code") as [[?|?]|]; destruct s; repeat split.
Qed.

Lemma ensure_same_configuration (w : World) (s : RedditAuth) (l : list event) :
  same_configuration s (self_of (ensure_credentials w s l)).
Proof.
  destruct (bundle_complete s) eqn:Hc.
  - rewrite ensure_complete by exact Hc. apply same_configuration_refl.
  - rewrite ensure_incomplete by exact Hc. destruct (is_exe s).
    + rewrite read_gui_eq.
      pose proof (assign_in_order_configuration (form_value w) s) as H.
      destruct (assign_in_order (form_value w) gui_assignments s) as [s' [k|]];
        cbn [fst self_of] in *; [exact H|].
      eapply same_configuration_trans; [exact H | apply same_configuration_code].
    + destruct (os_path_exists w (file_path s)) eqn:Hex.
      * destruct (file_rejected w s) as [cls|] eqn:Hrd.
        { rewrite (read_file_rejected _ _ _ _ Hex Hrd). apply same_configuration_refl. }
        destruct (has_section (file_parser w s) "reddit") eqn:Hsec.
        -- rewrite read_file_eq by assumption.
           pose proof (read_in_order_configuration (file_value w s) s) as H.
           destruct (read_in_order (file_value w s) file_lookups s) as [s' [e|]];
             cbn [fst self_of] in *; exact H.
        -- rewrite read_file_no_section by assumption. apply same_configuration_refl.
      * destruct (read_file_cases w s l) as [[_ Hr]|[(Hex' & _)|(Hex' & _)]];
          [|congruence|congruence].
        rewrite Hr. apply same_configuration_refl.
Qed.

(** However a run of the entry point ends (a session, an exit, an
    exception that leaves it), the object keeps the flag, the path and the
    user agent it was built with: only credentials are ever assigned. *)
Theorem entry_point_keeps_configuration (w : World) (s : RedditAuth) :
  same_configuration s (self_of (run (get_reddit_instance w) s)).
Proof.
  rewrite get_reddit_instance_handled, handled_self.
  pose proof (ensure_same_configuration w s []) as H.
  destruct (ensure_credentials w s []) as [[[]|e|c] s1 l1] eqn:He; cbn [self_of] in H.
  - rewrite (try_after_read _ _ _ _ He). cbn [self_of].
    eapply same_configuration_trans; [exact H | apply same_configuration_cleaned].
  - assert (Hres : res (ensure_credentials w s []) = Raise e) by (rewrite He; reflexivity).
    rewrite (try_read_raises _ _ _ Hres), He. exact H.
  - exfalso. apply (ensure_no_exit w s [] c). rewrite He. reflexivity.
Qed.

(** A file read that stops half-way is not rolled back.  When the file
    exists, is read without error and has a [reddit] section, and the
    lookups of lines 83-87, made in order, stop at an option ([KeyError]
    for a required option that is missing, an interpolation error for a
    value that cannot be interpolated), that exception is caught by no
    [except] clause and leaves the entry point; the object keeps the
    values assigned from the options before it, the later attributes and
    the two-factor code being as they were, and the constructor is never
    called. *)
Theorem failed_file_read_is_not_rolled_back
    (w : World) (s s' : RedditAuth) (e : exn) :
  is_exe s = false ->
  bundle_complete s = false ->
  os_path_exists w (file_path s) = true ->
  file_rejected w s = None ->
  has_section (file_parser w s) "reddit" = true ->
  read_in_order (file_value w s) file_lookups s = (s', Some e) ->
  let r := run (get_reddit_instance w) s in
  res r = Raise e
  /\ caught e = false
  /\ self_of r = s'
  /\ two_factor_code (self_of r) = two_factor_code s
  /\ constructor_calls (trace r) = [].
Proof.
  intros Hexe Hinc Hex Hrd Hsec Ha r.
  assert (He : ensure_credentials w s []
               = mkResult (Raise e) s'
                   [PathExists (file_path s); ConfigRead (file_path s)]).
  { rewrite ensure_incomplete by exact Hinc. rewrite Hexe.
    rewrite read_file_eq by assumption. rewrite Ha. reflexivity. }
  assert (Hres : res (ensure_credentials w s []) = Raise e)
    by (rewrite He; reflexivity).
  assert (Hun : caught e = false).
  { destruct (caught e) eqn:Hc; [|reflexivity].
    destruct (ensure_raise_caught w s [] e Hres Hc) as (_ & _ & Hno & _). congruence. }
  assert (Hr : r = mkResult (Raise e) s'
                 [PathExists (file_path s); ConfigRead (file_path s)]).
  { subst r. rewrite get_reddit_instance_handled, (try_read_raises _ _ _ Hres), He.
    apply handled_uncaught. exact Hun. }
  rewrite Hr. cbn [res self_of trace]. repeat split; try assumption.
  revert Ha. cbn [read_in_order file_lookups].
  destruct (file_value w s "client_id") as [[?|?]|]; try solve [intros [= <- _]; reflexivity].
  destruct (file_value w s "client_secret") as [[?|?]|];
    try solve [intros [= <- _]; destruct s; reflexivity].
  destruct (file_value w s "username") as [[?|?]|];
    try solve [intros [= <- _]; destruct s; reflexivity].
  destruct (file_value w s "password") as [[?|?]|];
    try solve [intros [= <- _]; destruct s; reflexivity].
  destruct (file_value w s "two_factor_code") as [[?|?]|];
    try discriminate; intros [= <- _]; destruct s; reflexivity.
Qed.

Lemma failed_file_read_is_not_rolled_back_witness :
  let r := run (get_reddit_instance (world true no_password_config None None))
               script_auth in
  res r = Raise (KeyError "password")
  /\ caught (KeyError "password") = false
  /\ self_of r
     = mkRedditAuth false default_file_path default_user_agent
         (PStr "abc") (PStr "xyz") (PStr "alice") PNone PNone
  /\ two_factor_code (self_of r) = two_factor_code script_auth
  /\ constructor_calls (trace r) = [].
Proof.
  apply (failed_file_read_is_not_rolled_back
           (world true no_password_config None None) script_auth);
    vm_compute; reflexivity.
Defined.

(** The same on the form: a form that lacks a required field stops the
    read with the [KeyError] of the first such field, which leaves the
    entry point; the fields before it were assigned, the form was asked
    once, and nothing was printed. *)
Theorem form_missing_field_propagates
    (w : World) (s s' : RedditAuth) (k : string) :
  is_exe s = true ->
  bundle_complete s = false ->
  assign_in_order (form_value w) gui_assignments s = (s', Some k) ->
  let r := run (get_reddit_instance w) s in
  res r = Raise (KeyError k)
  /\ self_of r = s'
  /\ trace r = [GuiPrompt]
  /\ In k required_fields
  /\ gui_get_credentials w !! k = None.
Proof.
  intros Hexe Hinc Ha r.
  assert (He : ensure_credentials w s [] = mkResult (Raise (KeyError k)) s' [GuiPrompt]).
  { rewrite ensure_incomplete by exact Hinc. rewrite Hexe, read_gui_eq, Ha. reflexivity. }
  assert (Hres : res (ensure_credentials w s []) = Raise (KeyError k))
    by (rewrite He; reflexivity).
  assert (Hr : r = mkResult (Raise (KeyError k)) s' [GuiPrompt]).
  { subst r. rewrite get_reddit_instance_handled, (try_read_raises _ _ _ Hres), He.
    apply handled_uncaught. reflexivity. }
  rewrite Hr. cbn [res self_of trace]. repeat (split; [reflexivity|]).
  revert Ha. unfold form_value, required_fields. cbn [assign_in_order gui_assignments].
  destruct (gui_get_credentials w !! "client id") eqn:H1;
    [|intros [= _ <-]; split; [simpl; tauto | exact H1]].
  destruct (gui_get_credentials w !! "client secret") eqn:H2;
    [|intros [= _ <-]; split; [simpl; tauto | exact H2]].
  destruct (gui_get_credentials w !! "username") eqn:H3;
    [|intros [= _ <-]; split; [simpl; tauto | exact H3]].
  destruct (gui_get_credentials w !! "password") eqn:H4;
    [discriminate|intros [= _ <-]; split; [simpl; tauto | exact H4]].
Qed.

Lemma form_missing_field_propagates_witness :
  let w := mkWorld (delete "username" sample_form) (fun _ => true)
             (fun _ => Parsed sample_config) (fun _ => None) (fun _ => None) in
  let r := run (get_reddit_instance w) exe_auth in
  res r = Raise (KeyError "username")
  /\ self_of r
     = mkRedditAuth true default_file_path default_user_agent
         (PStr "abc") (PStr "xyz") PNone PNone PNone
  /\ trace r = [GuiPrompt]
  /\ In "username" required_fields
  /\ delete "username" sample_form !! "username" = None.
Proof.
  refine (form_missing_field_propagates
            (mkWorld (delete "username" sample_form) (fun _ => true)
               (fun _ => Parsed sample_config) (fun _ => None) (fun _ => None)) exe_auth
            (mkRedditAuth true default_file_path default_user_agent
               (PStr "abc") (PStr "xyz") PNone PNone PNone)
            "username" _ _ _);
    vm_compute; reflexivity.
Defined.

(** ** The calls to praw over a whole run *)

(** A stretch of a trace without a call to praw. *)
Definition no_calls (t : list event) : Prop :=
  constructor_calls t = [] /\ verify_calls t = [].

(** Over any run, either the read raised and praw is never called, or
    the trace is: events without a call to praw, the one call of the
    constructor on the arguments built from the credentials, then, exactly
    when the constructor returned, the one verification call, made at
    once and on the session just built, then again events without a call
    to praw.  So the constructor is called at most once, and the
    verification at most once, right after a constructor call that
    returned and on its session. *)
Theorem verification_follows_construction (w : World) (s : RedditAuth) :
  let t := trace (run (get_reddit_instance w) s) in
  let read := ensure_credentials w s [] in
  (no_calls t /\ exists e, res read = Raise e)
  \/ (res read = Return tt
      /\ exists t1 t2,
           no_calls t1 /\ no_calls t2
           /\ t = t1 ++ RedditInit (kw_of (self_of read))
                    :: match praw_Reddit w (kw_of (self_of read)) with
                       | Some _ => []
                       | None => [UserMe (mkReddit (kw_of (self_of read)))]
                       end ++ t2
           /\ constructor_calls t = [kw_of (self_of read)]
           /\ verify_calls t
              = match praw_Reddit w (kw_of (self_of read)) with
                | Some _ => []
                | None => [mkReddit (kw_of (self_of read))]
                end).
Proof.
  intros t read. subst t read. rewrite get_reddit_instance_handled.
  destruct (ensure_trace w s []) as (t1 & Ht1 & Hc1 & Hv1 & _).
  destruct (ensure_credentials w s []) as [[[]|e|c] s1 l1] eqn:He; cbn [trace app] in Ht1.
  - right. split; [reflexivity|]. cbn [self_of].
    rewrite (try_after_read _ _ _ _ He).
    destruct (handled_trace (mkResult (auth_outcome w s1) (cleaned s1)
                               (l1 ++ auth_trace w s1))) as (u & -> & Hcu & Hvu).
    cbn [trace]. subst l1.
    exists (t1 ++ [Print retrieving_message]).
    exists (match praw_Reddit w (kw_of s1) with
            | Some _ => []
            | None =>
                match user_me w (mkReddit (kw_of s1)) with
                | Some _ => []
                | None => [Print success_message]
                end
            end ++ u).
    split; [|split; [|split; [|split]]].
    + split; [rewrite constructor_calls_app | rewrite verify_calls_app];
        [rewrite Hc1 | rewrite Hv1]; reflexivity.
    + split; [rewrite constructor_calls_app | rewrite verify_calls_app];
        [rewrite Hcu | rewrite Hvu]; rewrite app_nil_r;
        destruct (praw_Reddit w (kw_of s1)); try reflexivity;
        destruct (user_me w _); reflexivity.
    + unfold auth_trace. rewrite <- !app_assoc. cbn [app]. f_equal. f_equal. f_equal.
      destruct (praw_Reddit w (kw_of s1)); [reflexivity|]. cbn [app]. reflexivity.
    + rewrite !constructor_calls_app, Hc1, Hcu, auth_trace_calls. reflexivity.
    + rewrite !verify_calls_app, Hv1, Hvu, app_nil_r. cbn [app].
      unfold auth_trace. destruct (praw_Reddit w (kw_of s1)); [reflexivity|].
      destruct (user_me w _); reflexivity.
  - left.
    assert (Hres : res (ensure_credentials w s []) = Raise e) by (rewrite He; reflexivity).
    rewrite (try_read_raises _ _ _ Hres), He. cbn [self_of trace res].
    destruct (handled_trace (mkResult (Raise e) s1 l1)) as (u & -> & Hcu & Hvu).
    cbn [trace]. subst l1.
    split; [|exists e; reflexivity].
    split; [rewrite constructor_calls_app, Hc1, Hcu | rewrite verify_calls_app, Hv1, Hvu];
      reflexivity.
  - exfalso. apply (ensure_no_exit w s [] c). rewrite He. reflexivity.
Qed.

(** The first [except] clause catches every [FileNotFoundError] of the
    [try] block, also one raised inside praw: the run then ends in
    [sys.exit(1)] after the instructions for the credentials file, with
    the path of the object in them, whether or not that file was read. *)
Theorem file_error_inside_praw_is_reported_as_missing_file
    (w : World) (s s1 : RedditAuth) (l1 : list event) (m : string) :
  ensure_credentials w s [] = mkResult (Return tt) s1 l1 ->
  auth_outcome w s1 = Raise (FileNotFoundError m) ->
  let r := run (get_reddit_instance w) s in
  res r = Exit 1
  /\ printed (trace r) = [retrieving_message; missing_file_message (file_path s)]
  /\ constructor_calls (trace r) = [kw_of s1]
  /\ consults_file (trace r) = consults_file l1.
Proof.
  intros He Ho r. subst r.
  destruct (ensure_trace w s []) as (t1 & Ht1 & _ & _ & Hp1).
  rewrite He in Ht1. cbn [trace app] in Ht1. subst l1.
  pose proof (ensure_same_configuration w s []) as (_ & Hpath & _).
  rewrite He in Hpath. cbn [self_of] in Hpath.
  split; [|split; [|split]].
  - rewrite (run_after_read _ _ _ _ He), Ho, handled_missing_file. reflexivity.
  - rewrite (run_after_read _ _ _ _ He), Ho, handled_missing_file. cbn [trace].
    rewrite !printed_app, Hp1.
    destruct (same_configuration_cleaned s1) as (_ & -> & _). rewrite Hpath.
    unfold auth_outcome in Ho. unfold auth_trace.
    destruct (praw_Reddit w (kw_of s1)); [reflexivity|].
    destruct (user_me w _); [reflexivity|discriminate Ho].
  - apply (run_constructor_calls _ _ _ _ He).
  - rewrite (run_after_read _ _ _ _ He), Ho, handled_missing_file. cbn [trace].
    rewrite !consults_file_app, orb_false_r.
    unfold auth_outcome in Ho. unfold auth_trace.
    destruct (praw_Reddit w (kw_of s1)); [cbn; apply orb_false_r|].
    destruct (user_me w _); [cbn; apply orb_false_r|discriminate Ho].
Qed.

Lemma file_error_inside_praw_is_reported_as_missing_file_witness :
  let w := world false sample_config (Some (FileNotFoundError "praw.ini")) None in
  let r := run (get_reddit_instance w) (preset_auth PNone) in
  res r = Exit 1
  /\ printed (trace r) = [retrieving_message; missing_file_message default_file_path]
  /\ constructor_calls (trace r) = [kw_of (preset_auth PNone)]
  /\ consults_file (trace r) = false.
Proof.
  exact (file_error_inside_praw_is_reported_as_missing_file
           (world false sample_config (Some (FileNotFoundError "praw.ini")) None)
           (preset_auth PNone) (preset_auth PNone) [] "praw.ini" eq_refl eq_refl).
Defined.

(** ** Calling the entry point again *)

Lemma cleaned_idem (s : RedditAuth) : cleaned (cleaned s) = cleaned s.
Proof.
  unfold cleaned at 2 3. destruct (truthy (two_factor_code s)) eqn:Ht.
  - unfold cleaned. destruct s. cbn [two_factor_code set_two_factor_code] in *.
    destruct (truthy (clean_two_factor_code _)); [|reflexivity].
    cbn [set_two_factor_code]. rewrite clean_two_factor_code_idem. reflexivity.
  - unfold cleaned. rewrite Ht. reflexivity.
Qed.

(** A run that had its four required credentials leaves an object on
    which every later call, in whatever state the form and the file then
    are, consults no source, calls the constructor with the arguments of
    the first call, and changes nothing more. *)
Theorem second_call_reuses_credentials
    (w w' : World) (s s1 : RedditAuth) (l1 : list event) :
  ensure_credentials w s [] = mkResult (Return tt) s1 l1 ->
  bundle_complete s1 = true ->
  let r1 := run (get_reddit_instance w) s in
  let r2 := run (get_reddit_instance w') (self_of r1) in
  consults_gui (trace r2) = false
  /\ consults_file (trace r2) = false
  /\ constructor_calls (trace r2) = constructor_calls (trace r1)
  /\ self_of r2 = self_of r1.
Proof.
  intros He Hc r1 r2.
  assert (Hs : self_of r1 = cleaned s1).
  { subst r1. rewrite (run_after_read _ _ _ _ He), handled_self. reflexivity. }
  assert (Hc' : bundle_complete (cleaned s1) = true)
    by (rewrite bundle_complete_cleaned; exact Hc).
  pose proof (ensure_complete w' (cleaned s1) [] Hc') as He'.
  subst r2. rewrite Hs.
  split; [|split; [|split]].
  - destruct (run_trace_split w' (cleaned s1)) as (t & Ht & Htg & _).
    rewrite Ht, consults_gui_app, Htg, He'. reflexivity.
  - destruct (run_trace_split w' (cleaned s1)) as (t & Ht & _ & Htf).
    rewrite Ht, consults_file_app, Htf, He'. reflexivity.
  - subst r1. rewrite (run_constructor_calls _ _ _ _ He'),
      (run_constructor_calls _ _ _ _ He), kw_of_cleaned. reflexivity.
  - rewrite (run_after_read _ _ _ _ He'), handled_self. cbn [self_of].
    apply cleaned_idem.
Qed.

Lemma second_call_reuses_credentials_witness :
  let w := world true sample_config None None in
  let w' := world false empty_password_config None None in
  let r1 := run (get_reddit_instance w) script_auth in
  let r2 := run (get_reddit_instance w') (self_of r1) in
  consults_gui (trace r2) = false
  /\ consults_file (trace r2) = false
  /\ constructor_calls (trace r2) = constructor_calls (trace r1)
  /\ self_of r2 = self_of r1.
Proof.
  refine (second_call_reuses_credentials
            (world true sample_config None None)
            (world false empty_password_config None None)
            script_auth
            (with_credentials script_auth (PStr "abc") (PStr "xyz") (PStr "alice")
               (PStr "hunter2") (PStr "None"))
            [PathExists default_file_path; ConfigRead default_file_path] _ _);
    vm_compute; reflexivity.
Defined.

(** ** From a source to the constructor *)

(** A file with a [two_factor_code] option. *)
Definition code_config (code : string) : ConfigParser :=
  mkConfigParser ∅ {[ "reddit" := <[ "two_factor_code" := code ]> sample_options ]}.

(** A script run on an object without credentials, over a file that is
    read without error and in whose [reddit] section the lookups of the
    four required options and of [two_factor_code] give values: the file
    is read, the constructor gets these values with the password merged
    by the rule (spaces removed from the code, nothing added for an empty
    code or [none]), and the object keeps the code without its spaces. *)
Theorem file_code_reaches_constructor
    (w : World) (s : RedditAuth) (v1 v2 v3 : pyval) (pw code : string) :
  is_exe s = false ->
  bundle_complete s = false ->
  file_supplies w s v1 v2 v3 (PStr pw) (Some code) ->
  let r := run (get_reddit_instance w) s in
  constructor_calls (trace r)
  = [mkRedditArgs v1 v2 v3 (PStr (merge_rule (Str.replace " " "") pw code)) (user_agent s)]
  /\ two_factor_code (self_of r) = PStr (Str.replace " " "" code)
  /\ password (self_of r) = PStr pw
  /\ consults_file (trace r) = true
  /\ consults_gui (trace r) = false.
Proof.
  intros Hexe Hinc Hsup r.
  assert (He : ensure_credentials w s []
               = mkResult (Return tt)
                   (with_credentials s v1 v2 v3 (PStr pw) (PStr code))
                   [PathExists (file_path s); ConfigRead (file_path s)]).
  { rewrite ensure_incomplete by exact Hinc. rewrite Hexe.
    rewrite (read_file_ok _ _ _ _ _ _ _ _ Hsup). reflexivity. }
  assert (Hs : self_of r = cleaned (with_credentials s v1 v2 v3 (PStr pw) (PStr code))).
  { subst r. rewrite (run_after_read _ _ _ _ He), handled_self. reflexivity. }
  split; [|split; [|split; [|split]]].
  - subst r. rewrite (run_constructor_calls _ _ _ _ He).
    unfold kw_of, with_credentials, merge_rule.
    cbn [client_id client_secret username password two_factor_code user_agent].
    rewrite combined_password_rule.
    destruct (trivial_code (Str.replace " " "") code); reflexivity.
  - rewrite Hs. unfold cleaned, with_credentials. cbn [two_factor_code].
    destruct code; reflexivity.
  - rewrite Hs. unfold cleaned, with_credentials. cbn [two_factor_code].
    destruct (truthy (PStr code)); reflexivity.
  - subst r. destruct (run_trace_split w s) as (t & Ht & _ & _).
    rewrite Ht, consults_file_app, He. reflexivity.
  - subst r. destruct (run_trace_split w s) as (t & Ht & Htg & _).
    rewrite Ht, consults_gui_app, Htg, He. reflexivity.
Qed.

Lemma file_code_reaches_constructor_witness :
  let r := run (get_reddit_instance (world true (code_config spaced_code) None None))
               script_auth in
  constructor_calls (trace r)
  = [mkRedditArgs (PStr "abc") (PStr "xyz") (PStr "alice")
       (PStr (merge_rule (Str.replace " " "") "hunter2" spaced_code)) default_user_agent]
  /\ two_factor_code (self_of r) = PStr "123456"
  /\ password (self_of r) = PStr "hunter2"
  /\ consults_file (trace r) = true
  /\ consults_gui (trace r) = false.
Proof.
  refine (file_code_reaches_constructor
            (world true (code_config spaced_code) None None) script_auth
            (PStr "abc") (PStr "xyz") (PStr "alice") "hunter2" spaced_code _ _ _);
    [reflexivity | reflexivity | repeat split; vm_compute; reflexivity].
Defined.

(** The same for an executable run: the form's values go to the
    constructor, the password merged with the form's code by the same
    rule, and neither the file system nor the form a second time is
    consulted. *)
Theorem form_code_reaches_constructor
    (w : World) (s : RedditAuth) (v1 v2 v3 v4 : pyval) (code : string) :
  is_exe s = true ->
  bundle_complete s = false ->
  form_supplies w v1 v2 v3 v4 (Some (PStr code)) ->
  let r := run (get_reddit_instance w) s in
  constructor_calls (trace r)
  = [mkRedditArgs v1 v2 v3
       (if trivial_code (Str.replace " " "") code then v4
        else PStr (format v4 +:+ ":" +:+ Str.replace " " "" code))
       (user_agent s)]
  /\ two_factor_code (self_of r) = PStr (Str.replace " " "" code)
  /\ consults_file (trace r) = false
  /\ exists t, trace r = GuiPrompt :: t /\ consults_gui t = false.
Proof.
  intros Hexe Hinc Hsup r.
  assert (He : ensure_credentials w s []
               = mkResult (Return tt)
                   (with_credentials s v1 v2 v3 v4 (PStr code)) [GuiPrompt]).
  { rewrite ensure_incomplete by exact Hinc. rewrite Hexe.
    rewrite (read_gui_ok _ _ _ _ _ _ _ _ Hsup). reflexivity. }
  assert (Hs : self_of r = cleaned (with_credentials s v1 v2 v3 v4 (PStr code))).
  { subst r. rewrite (run_after_read _ _ _ _ He), handled_self. reflexivity. }
  destruct (run_trace_split w s) as (t & Ht & Htg & Htf).
  rewrite He in Ht. cbn [trace app] in Ht.
  split; [|split; [|split]].
  - subst r. rewrite (run_constructor_calls _ _ _ _ He).
    unfold kw_of, with_credentials.
    cbn [client_id client_secret username password two_factor_code user_agent].
    rewrite combined_password_rule. reflexivity.
  - rewrite Hs. unfold cleaned, with_credentials. cbn [two_factor_code].
    destruct code; reflexivity.
  - subst r. rewrite Ht. cbn [consults_file existsb orb]. exact Htf.
  - exists t. split; [exact Ht | exact Htg].
Qed.

Lemma form_code_reaches_constructor_witness :
  let w := mkWorld (<[ "two factor code" := PStr spaced_code ]> sample_form)
             (fun _ => false) (fun _ => Parsed sample_config) (fun _ => None) (fun _ => None) in
  let r := run (get_reddit_instance w) exe_auth in
  constructor_calls (trace r)
  = [mkRedditArgs (PStr "abc") (PStr "xyz") (PStr "alice")
       (if trivial_code (Str.replace " " "") spaced_code then PStr "hunter2"
        else PStr (format (PStr "hunter2") +:+ ":" +:+ Str.replace " " "" spaced_code))
       default_user_agent]
  /\ two_factor_code (self_of r) = PStr (Str.replace " " "" spaced_code)
  /\ consults_file (trace r) = false
  /\ exists t, trace r = GuiPrompt :: t /\ consults_gui t = false.
Proof.
  refine (form_code_reaches_constructor
            (mkWorld (<[ "two factor code" := PStr spaced_code ]> sample_form)
               (fun _ => false) (fun _ => Parsed sample_config) (fun _ => None) (fun _ => None))
            exe_auth (PStr "abc") (PStr "xyz") (PStr "alice") (PStr "hunter2")
            spaced_code _ _ _);
    [reflexivity | reflexivity | repeat split; vm_compute; reflexivity].
Defined.
